(** * pdfit: the message dispatcher of [message_handler.py]

    A shallow embedding of [src/message_handler.py] and of the two library
    functions it relies on ([base64.b64encode] and [base64.b64decode] of the
    Python standard library), followed by the properties of the dispatcher.

    Python objects are modelled as follows.
    - [bytes] is a list of [Byte.byte]; [str] is a [string], each character
      standing for the code point of the same number (so the characters
      above 127 are non-ASCII text).
    - a [dict] with string keys is a [gmap string value]; dict objects live
      in a heap indexed by references, because [decode_payload] and
      [encode_payload] update the dict they are given in place.
    - a raised exception is a value of type [exn]; a call either returns or
      raises ([outcome]). *)

From Stdlib Require Import NArith ZArith Ascii String List Lia.
From Stdlib Require Import Strings.Byte.
From stdpp Require Import base option strings pretty gmap.

Local Open Scope N_scope.

(** ** Bytes and their numeric value *)

Abbreviation bytes := (list byte).

(** The byte of value [n mod 256] (a C conversion to [unsigned char]). *)
Definition byte_of_N (n : N) : byte :=
  match Byte.of_N (n mod 256) with
  | Some b => b
  | None => x00
  end.

(** [b"..."] literals. *)
Definition bytes_of_string (s : string) : bytes := list_byte_of_string s.

(** ** The library: [binascii] and [base64] (CPython 3.11) *)

Module Base64.

Definition BASE64_PAD : N := 61.

Definition table_b2a_base64_str : string :=
  "ABCDEFGHIJKLMNOPQRSTUVWXYZabcdefghijklmnopqrstuvwxyz0123456789+/".

(** [table_b2a_base64[i]] for a 6-bit [i]. *)
Definition table_b2a_base64 (i : N) : byte :=
  nth (N.to_nat i) (bytes_of_string table_b2a_base64_str) x00.

(** [table_a2b_base64[c]]: the 6-bit value of an alphabet character, 0 for
    the pad character, and 255 (the [unsigned char] reading of -1) for
    every other character. *)
Definition table_a2b_base64 (c : N) : N :=
  if (65 <=? c) && (c <=? 90) then c - 65
  else if (97 <=? c) && (c <=? 122) then c - 71
  else if (48 <=? c) && (c <=? 57) then c + 4
  else if c =? 43 then 62
  else if c =? 47 then 63
  else if c =? 61 then 0
  else 255.

(** [binascii.b2a_base64(data, newline=False)]: three bytes give four
    characters; a last group of one or two bytes is padded with [=]. *)
Fixpoint b2a_base64 (bin_data : bytes) : bytes :=
  match bin_data with
  | [] => []
  | [a] =>
      let a := Byte.to_N a in
      [ table_b2a_base64 (N.shiftr a 2);
        table_b2a_base64 (N.shiftl (N.land a 3) 4);
        byte_of_N BASE64_PAD; byte_of_N BASE64_PAD ]
  | [a; b] =>
      let a := Byte.to_N a in
      let b := Byte.to_N b in
      [ table_b2a_base64 (N.shiftr a 2);
        table_b2a_base64 (N.lor (N.shiftl (N.land a 3) 4) (N.shiftr b 4));
        table_b2a_base64 (N.shiftl (N.land b 15) 2);
        byte_of_N BASE64_PAD ]
  | a :: b :: c :: rest =>
      let a := Byte.to_N a in
      let b := Byte.to_N b in
      let c := Byte.to_N c in
      table_b2a_base64 (N.shiftr a 2)
      :: table_b2a_base64 (N.lor (N.shiftl (N.land a 3) 4) (N.shiftr b 4))
      :: table_b2a_base64 (N.lor (N.shiftl (N.land b 15) 2) (N.shiftr c 6))
      :: table_b2a_base64 (N.land c 63)
      :: b2a_base64 rest
  end.

(** The loop of [binascii.a2b_base64(data, strict_mode=False)].
    [quad_pos] is the position in the current group of four characters,
    [leftchar] the bits left over from the previous character, [pads] the
    number of pad characters seen since the last data character, and
    [bin_data] the bytes written so far.  [inr msg] is [binascii.Error]
    with the text [msg]. *)
Fixpoint a2b_loop (ascii_data : bytes) (quad_pos : nat) (leftchar : N)
    (pads : nat) (bin_data : bytes) : bytes + string :=
  match ascii_data with
  | [] =>
      match quad_pos with
      | 0%nat => inl bin_data
      | 1%nat =>
          inr ("Invalid base64-encoded string: number of data characters ("
               +:+ pretty (length bin_data / 3 * 4 + 1)%nat
               +:+ ") cannot be 1 more than a multiple of 4")
      | _ => inr "Incorrect padding"
      end
  | ch :: rest =>
      let this_ch := Byte.to_N ch in
      if this_ch =? BASE64_PAD then
        if Nat.leb 2 quad_pos then
          if Nat.leb 4 (quad_pos + S pads) then inl bin_data
          else a2b_loop rest quad_pos leftchar (S pads) bin_data
        else a2b_loop rest quad_pos leftchar pads bin_data
      else
        let this_ch := table_a2b_base64 this_ch in
        if 64 <=? this_ch then a2b_loop rest quad_pos leftchar pads bin_data
        else
          match quad_pos with
          | 0%nat => a2b_loop rest 1 this_ch 0 bin_data
          | 1%nat =>
              a2b_loop rest 2 (N.land this_ch 15) 0
                (bin_data ++
                 [byte_of_N (N.lor (N.shiftl leftchar 2) (N.shiftr this_ch 4))])
          | 2%nat =>
              a2b_loop rest 3 (N.land this_ch 3) 0
                (bin_data ++
                 [byte_of_N (N.lor (N.shiftl leftchar 4) (N.shiftr this_ch 2))])
          | _ =>
              a2b_loop rest 0 0 0
                (bin_data ++ [byte_of_N (N.lor (N.shiftl leftchar 6) this_ch)])
          end
  end.

Definition a2b_base64 (data : bytes) : bytes + string :=
  a2b_loop data 0 0 0 [].

End Base64.

(** ** Python values *)

#[warnings="-register-all"]
Inductive value : Type :=
| VNone
| VBool (b : bool)
| VInt (z : Z)
| VStr (s : string)
| VBytes (b : bytes)
| VList (l : list value).

(** [type(v).__name__] *)
Definition type_name (v : value) : string :=
  match v with
  | VNone => "NoneType"
  | VBool _ => "bool"
  | VInt _ => "int"
  | VStr _ => "str"
  | VBytes _ => "bytes"
  | VList _ => "list"
  end.

(** Whether [hash(v)] succeeds: lists are unhashable. *)
Definition hashable (v : value) : bool :=
  match v with
  | VList _ => false
  | _ => true
  end.

(** *** [repr] *)

Definition backslash : ascii := ascii_of_N 92.
Definition double_quote : ascii := ascii_of_N 34.
Definition single_quote : ascii := ascii_of_N 39.

Definition hex_digit (n : N) : ascii :=
  nth (N.to_nat n) (list_ascii_of_string "0123456789abcdef") "0"%char.

(** A backslash, [x] and the two hexadecimal digits of [n]. *)
Definition hex_escape (n : N) : string :=
  String backslash (String "x"%char
    (String (hex_digit (n / 16)) (String (hex_digit (n mod 16)) EmptyString))).

Fixpoint string_contains (c : ascii) (s : string) : bool :=
  match s with
  | EmptyString => false
  | String d s' => if Ascii.eqb c d then true else string_contains c s'
  end.

(** The quote [repr] chooses: a double quote when the text has a single
    quote and no double quote, a single quote otherwise. *)
Definition repr_quote (s : string) : ascii :=
  if string_contains single_quote s && negb (string_contains double_quote s)
  then double_quote else single_quote.

(** Code points below 256 that [str.isprintable] rejects. *)
Definition str_unprintable (n : N) : bool :=
  (n <? 32) || ((127 <=? n) && (n <=? 160)) || (n =? 173).

Definition repr_char (unprintable : N -> bool) (quote c : ascii) : string :=
  let n := N_of_ascii c in
  if Ascii.eqb c quote || Ascii.eqb c backslash
  then String backslash (String c EmptyString)
  else if n =? 9 then String backslash "t"
  else if n =? 10 then String backslash "n"
  else if n =? 13 then String backslash "r"
  else if unprintable n then hex_escape n
  else String c EmptyString.

Fixpoint repr_chars (unprintable : N -> bool) (quote : ascii) (s : string) : string :=
  match s with
  | EmptyString => EmptyString
  | String c s' => repr_char unprintable quote c +:+ repr_chars unprintable quote s'
  end.

Definition repr_str (s : string) : string :=
  let q := repr_quote s in
  String q (repr_chars str_unprintable q s) +:+ String q EmptyString.

Definition repr_bytes (b : bytes) : string :=
  let s := string_of_list_byte b in
  let q := repr_quote s in
  String "b"%char (String q (repr_chars (fun n => (n <? 32) || (127 <=? n)) q s))
  +:+ String q EmptyString.

Fixpoint join (sep : string) (l : list string) : string :=
  match l with
  | [] => EmptyString
  | [x] => x
  | x :: l' => x +:+ sep +:+ join sep l'
  end.

Fixpoint py_repr (v : value) : string :=
  match v with
  | VNone => "None"
  | VBool true => "True"
  | VBool false => "False"
  | VInt z => pretty z
  | VStr s => repr_str s
  | VBytes b => repr_bytes b
  | VList l => "[" +:+ join ", " (map py_repr l) +:+ "]"
  end.

(** ** Exceptions and outcomes *)

(** The exception classes the dispatcher tells apart.  [KeyError],
    [Exception_] and [BaseException_] carry the text [str(error)] gives;
    [Exception_] stands for every class below [Exception] not listed here
    and [BaseException_] for the classes outside [Exception]
    ([KeyboardInterrupt], [SystemExit], ...).  Every exception of the
    model has a text: an exception object whose [__str__] raises, or an
    instance of the four classes whose [message] attribute was removed,
    is not modelled. *)
Inductive exn : Type :=
| UnrecognizedFileTypeError
| MissingPayloadError
| PayloadNotBase64Error
| CantEncodePayloadError
| binascii_Error (msg : string)
| KeyError (text : string)
| TypeError (msg : string)
| ValueError (msg : string)
| UnboundLocalError (msg : string)
| Exception_ (text : string)
| BaseException_ (text : string).

(** [error.message], set by the [__init__] of the four classes of
    [message_handler.py]. *)
Definition message_attr (e : exn) : option string :=
  match e with
  | UnrecognizedFileTypeError => Some "File type not recognized"
  | MissingPayloadError => Some "Message has no payload"
  | PayloadNotBase64Error => Some "Message payload cannot be decoded from base64"
  | CantEncodePayloadError => Some "Cannot encode payload into base64"
  | _ => None
  end.

(** [isinstance(e, KeyError)] *)
Definition is_KeyError (e : exn) : bool :=
  match e with
  | KeyError _ => true
  | _ => false
  end.

(** [isinstance(e, binascii.Error)] *)
Definition is_binascii_Error (e : exn) : bool :=
  match e with
  | binascii_Error _ => true
  | _ => false
  end.

(** [isinstance(e, Exception)] *)
Definition is_Exception (e : exn) : bool :=
  match e with
  | BaseException_ _ => false
  | _ => true
  end.

(** [str(e)], which the model takes to return for every exception. *)
Definition str_exn (e : exn) : string :=
  match e with
  | UnrecognizedFileTypeError => "File type not recognized"
  | MissingPayloadError => "Message has no payload"
  | PayloadNotBase64Error => "Message payload cannot be decoded from base64"
  | CantEncodePayloadError => "Cannot encode payload into base64"
  | binascii_Error msg => msg
  | KeyError text => text
  | TypeError msg => msg
  | ValueError msg => msg
  | UnboundLocalError msg => msg
  | Exception_ text => text
  | BaseException_ text => text
  end.

Inductive outcome (A : Type) : Type :=
| Return (a : A)
| Raise (e : exn).
Arguments Return {A} a.
Arguments Raise {A} e.

(** ** Dict objects and the heap *)

Abbreviation dict := (gmap string value).

Abbreviation loc := positive.

(** The dict objects alive, by reference.  A reference outside the domain
    reads as the empty dict. *)
Abbreviation heap := (gmap loc dict).

(** A computation over a state [S] that returns or raises. *)
Definition M (S A : Type) : Type := S -> outcome A * S.

Definition ret {S A} (a : A) : M S A := fun s => (Return a, s).
Definition raise {S A} (e : exn) : M S A := fun s => (Raise e, s).
Definition bind {S A B} (m : M S A) (k : A -> M S B) : M S B :=
  fun s =>
    match m s with
    | (Return a, s') => k a s'
    | (Raise e, s') => (Raise e, s')
    end.
(** A pure step that may raise. *)
Definition lift {S A} (o : outcome A) : M S A := fun s => (o, s).

Notation "x <- m ;; k" := (bind m (fun x => k))
  (at level 100, m at next level, right associativity).
Notation "m ;;; k" := (bind m (fun _ => k))
  (at level 100, right associativity).

(** [try: m  except <class>: raise e'], where [catches] recognises the class. *)
Definition try_except_raise {S A} (m : M S A) (catches : exn -> bool) (e' : exn)
  : M S A :=
  fun s =>
    match m s with
    | (Raise e, s') => if catches e then (Raise e', s') else (Raise e, s')
    | r => r
    end.

(** [d[k]] on a dict object *)
Definition getitem (d : loc) (k : string) : M heap value :=
  fun h =>
    match (h !!! d) !! k with
    | Some v => (Return v, h)
    | None => (Raise (KeyError (py_repr (VStr k))), h)
    end.

(** [d[k] = v] on a dict object *)
Definition setitem (d : loc) (k : string) (v : value) : M heap unit :=
  fun h => (Return tt, <[d := <[k := v]> (h !!! d)]> h).

(** A dict display [{...}]: a new dict object. *)
Definition new_dict (d : dict) : M heap loc :=
  fun h => let l := fresh (dom h) in (Return l, <[l := d]> h).

(** ** [base64.b64decode] and [base64.b64encode] *)

Definition is_ascii (s : string) : bool :=
  forallb (fun c => N_of_ascii c <? 128) (list_ascii_of_string s).

(** [base64.b64decode(s)], with [validate=False]. *)
Definition b64decode (s : value) : outcome bytes :=
  let a2b data :=
    match Base64.a2b_base64 data with
    | inl b => Return b
    | inr msg => Raise (binascii_Error msg)
    end in
  match s with
  | VStr s =>
      if is_ascii s then a2b (bytes_of_string s)
      else Raise (ValueError "string argument should contain only ASCII characters")
  | VBytes b => a2b b
  | _ =>
      Raise (TypeError ("argument should be a bytes-like object or ASCII string, not "
                        +:+ py_repr (VStr (type_name s))))
  end.

(** [base64.b64encode(s)] on the values of the model, of which [bytes] is
    the one bytes-like object.  The size limit of [b2a_base64], above
    which it raises [binascii.Error], is not modelled. *)
Definition b64encode (s : value) : outcome bytes :=
  match s with
  | VBytes b => Return (Base64.b2a_base64 b)
  | _ =>
      Raise (TypeError ("a bytes-like object is required, not "
                        +:+ py_repr (VStr (type_name s))))
  end.

(** [b.decode("utf-8")] for bytes below 128, which is all [b64encode]
    produces ([b2a_base64_ascii] below): each byte is the code point. *)
Definition decode_utf8 (b : bytes) : string := string_of_list_byte b.

(** ** [message_handler.py] *)

Definition decode_payload (message : loc) : M heap loc :=
  try_except_raise
    (payload <- getitem message "payload" ;;
     decoded <- lift (b64decode payload) ;;
     setitem message "payload" (VBytes decoded) ;;;
     ret message)
    is_binascii_Error PayloadNotBase64Error.

Definition encode_payload (message : loc) : M heap loc :=
  try_except_raise
    (payload <- getitem message "payload" ;;
     encoded <- lift (b64encode payload) ;;
     setitem message "payload" (VStr (decode_utf8 encoded)) ;;;
     ret message)
    is_binascii_Error CantEncodePayloadError.

Section Dispatcher.

(** What the handlers can observe and change outside the message:
    handlers are external code with effects of their own. *)
Context {World : Type}.

(** A registered callable, as the result of calling it with the items of
    a dict as keyword arguments: binding the arguments and running the
    body either returns a value or raises, and may change the world.  The
    keyword arguments are a fresh dict, so the call does not reach the
    caller's dict object.  The values of the model are immutable: a
    handler that changes in place a list it was passed is not modelled. *)
Definition handler : Type := dict -> M World value.

(** [MessageHandler]: its one attribute, [function_dictionary]. *)
Record MessageHandler : Type := {
  function_dictionary : gmap string handler
}.

(** [MessageHandler.__init__] *)
Definition init (string_to_func : option (gmap string handler)) : MessageHandler :=
  match string_to_func with
  | None => {| function_dictionary := ∅ |}
  | Some d => {| function_dictionary := d |}
  end.

Definition add_function (self : MessageHandler) (file_type : string) (f : handler)
  : MessageHandler :=
  {| function_dictionary := <[file_type := f]> (function_dictionary self) |}.

(** [key in d] for the registry, whose keys are strings. *)
Definition dict_contains (d : gmap string handler) (key : value) : outcome bool :=
  match key with
  | VStr s => Return (bool_decide (is_Some (d !! s)))
  | _ =>
      if hashable key then Return false
      else Raise (TypeError ("unhashable type: " +:+ py_repr (VStr (type_name key))))
  end.

(** [d[key]] for the registry. *)
Definition dict_subscript (d : gmap string handler) (key : value) : outcome handler :=
  if hashable key then
    match key with
    | VStr s =>
        match d !! s with
        | Some f => Return f
        | None => Raise (KeyError (py_repr key))
        end
    | _ => Raise (KeyError (py_repr key))
    end
  else Raise (TypeError ("unhashable type: " +:+ py_repr (VStr (type_name key)))).

Definition validate_json (self : MessageHandler) (message_json : loc) : M heap unit :=
  type <- getitem message_json "type" ;;
  found <- lift (dict_contains (function_dictionary self) type) ;;
  if negb found then raise UnrecognizedFileTypeError else ret tt.

(** The state of a dispatch: the dict objects and the handlers' world. *)
Definition on_heap {A} (m : M heap A) : M (heap * World) A :=
  fun s =>
    match m (fst s) with
    | (o, h') => (o, (h', snd s))
    end.

Definition on_world {A} (m : M World A) : M (heap * World) A :=
  fun s =>
    match m (snd s) with
    | (o, w') => (o, (fst s, w'))
    end.

(** Unpacking [message] into keyword arguments: the items of the dict
    object. *)
Definition unpack (message : loc) : M (heap * World) dict :=
  fun s => (Return (fst s !!! message), s).

(** The first three statements of the [try] suite, with [reply] still
    unbound: they give [reply_payload]. *)
Definition invoke (self : MessageHandler) (message : loc) : M (heap * World) value :=
  on_heap (validate_json self message) ;;;
  message <- on_heap (decode_payload message) ;;
  type <- on_heap (getitem message "type") ;;
  f <- lift (dict_subscript (function_dictionary self) type) ;;
  kwargs <- unpack message ;;
  on_world (f kwargs).

Definition ok_reply (payload : value) : dict :=
  {[ "status" := VStr "ok"; "payload" := payload ]}.

Definition error_reply (text : string) : dict :=
  {[ "status" := VStr "error"; "payload" := VStr text ]}.

(** [finally: return reply], with the binding of the local [reply]:
    the pending exception, if any, is dropped by the [return]. *)
Definition finally_return (reply : option loc) : M (heap * World) loc :=
  match reply with
  | Some r => ret r
  | None =>
      raise (UnboundLocalError
        "cannot access local variable 'reply' where it is not associated with a value")
  end.

(** The three [except] clauses, tried in order, then [finally]. *)
Definition except_clauses (error : exn) (reply : option loc) : M (heap * World) loc :=
  match message_attr error with
  | Some message =>
      r <- on_heap (new_dict (error_reply message)) ;;
      finally_return (Some r)
  | None =>
      if is_KeyError error then
        r <- on_heap (new_dict
               (error_reply ("JSON object missing required field" +:+ str_exn error))) ;;
        finally_return (Some r)
      else if is_Exception error then
        r <- on_heap (new_dict (error_reply ("Server error: " +:+ str_exn error))) ;;
        finally_return (Some r)
      else finally_return reply
  end.

Definition generate_reply (self : MessageHandler) (message : loc) : M (heap * World) loc :=
  fun s =>
    match invoke self message s with
    | (Return reply_payload, s1) =>
        match on_heap (new_dict (ok_reply reply_payload)) s1 with
        | (Return reply, s2) =>
            match on_heap (encode_payload reply) s2 with
            | (Return reply, s3) => finally_return (Some reply) s3
            | (Raise error, s3) => except_clauses error (Some reply) s3
            end
        | (Raise error, s2) => except_clauses error None s2
        end
    | (Raise error, s1) => except_clauses error None s1
    end.

(** The dict a dispatch returned, read from the final heap. *)
Definition reply_of (r : outcome loc * (heap * World)) : option dict :=
  match r with
  | (Return l, s) => Some (fst s !!! l)
  | (Raise _, _) => None
  end.

(** The world a dispatch leaves. *)
Definition world_of (r : outcome loc * (heap * World)) : World := snd (snd r).

End Dispatcher.

Arguments handler : clear implicits.
Arguments MessageHandler : clear implicits.

(** ** Notions used to state the properties *)

(** The text an [except] clause of [generate_reply] puts in the reply for an
    exception below [Exception]. *)
Definition error_text (e : exn) : string :=
  match message_attr e with
  | Some message => message
  | None =>
      if is_KeyError e then "JSON object missing required field" +:+ str_exn e
      else "Server error: " +:+ str_exn e
  end.

Section Specification.

Context {World : Type}.
Implicit Types (self : MessageHandler World) (f : handler World).
Implicit Types (message : loc) (h : heap) (w : World).

(** Every exception a registered handler raises is below [Exception]. *)
Definition raises_only_Exception self : Prop :=
  forall t f kwargs w e w',
    function_dictionary self !! t = Some f ->
    f kwargs w = (Raise e, w') ->
    is_Exception e = true.

(** A reply has its two keys set and a status that is ["ok"] or ["error"]. *)
Definition well_formed_reply (reply : dict) : Prop :=
  (reply !! "status" = Some (VStr "ok") \/ reply !! "status" = Some (VStr "error"))
  /\ is_Some (reply !! "payload")
  /\ dom reply = {[ "status"; "payload" ]}.




(** The characters [a2b_base64] reads: the alphabet and the pad. *)
Definition is_base64_char (ch : byte) : bool :=
  (Byte.to_N ch =? Base64.BASE64_PAD)
  || (Base64.table_a2b_base64 (Byte.to_N ch) <? 64).

End Specification.

(** Checking the bit operations of base64 on all bytes. *)
Module Base64Groups.

(** The four 6-bit groups of three bytes. *)
Definition s0 (a : N) : N := N.shiftr a 2.
Definition s1 (a b : N) : N := N.lor (N.shiftl (N.land a 3) 4) (N.shiftr b 4).
Definition s2 (b c : N) : N := N.lor (N.shiftl (N.land b 15) 2) (N.shiftr c 6).
Definition s3 (c : N) : N := N.land c 63.

Definition group_check (a b : N) : bool :=
  (s0 a <? 64) && (s1 a b <? 64) && (s2 a b <? 64) && (s3 a <? 64)
  && (N.lor (N.shiftl (s0 a) 2) (N.shiftr (s1 a b) 4) =? a)
  && (N.land (s1 a b) 15 =? N.shiftr b 4)
  && (N.lor (N.shiftl (N.shiftr a 4) 4) (N.shiftr (s2 a b) 2) =? a)
  && (N.land (s2 a b) 3 =? N.shiftr b 6)
  && (N.lor (N.shiftl (N.shiftr a 6) 6) (s3 a) =? a).

End Base64Groups.

(** Checking a boolean property below a bound by running it. *)
Definition N_below (k : nat) : list N := map N.of_nat (seq 0 k).

(** ** Sample handlers *)

(** A handler with a [payload] parameter, accepting any other keyword
    arguments, that returns [payload]; the world counts the calls that ran
    the body. *)
Definition echo : handler nat := fun kwargs w =>
  match kwargs !! "payload" with
  | Some p => (Return p, S w)
  | None => (Raise (TypeError "echo() missing 1 required positional argument: 'payload'"), w)
  end.

(** A handler that takes any keyword arguments and returns [fields['name']]. *)
Definition needs_name : handler nat := fun kwargs w =>
  match kwargs !! "name" with
  | Some v => (Return v, S w)
  | None => (Raise (KeyError (py_repr (VStr "name"))), S w)
  end.

(** A handler that takes any keyword arguments and raises [Exception("boom")]. *)
Definition failing : handler nat := fun kwargs w =>
  (Raise (Exception_ "boom"), S w).

(** A handler that takes any keyword arguments and returns the [str]
    ["done"]. *)
Definition describe : handler nat := fun kwargs w =>
  (Return (VStr "done"), S w).


(** A dispatcher with the four sample handlers registered. *)
Definition sample_dispatcher : MessageHandler nat :=
  add_function
    (add_function
       (add_function (add_function (init None) "echo" echo) "named" needs_name)
       "failing" failing)
    "describe" describe.

(** ** Sample messages *)

(** A heap with one dict object, at reference 1. *)
Definition one_message (d : dict) : heap := {[ 1%positive := d ]}.

(** [{"type": "echo", "payload": b"hi"}] *)
Definition hi_heap : heap :=
  one_message {[ "type" := VStr "echo"; "payload" := VBytes (bytes_of_string "hi") ]}.

(** [{"type": "echo", "payload": "aGk="}], the payload being [b"hi"] encoded. *)
Definition echo_hi_heap : heap :=
  one_message {[ "type" := VStr "echo"; "payload" := VStr "aGk=" ]}.

(** The sample message with another type. *)
Definition typed_hi_heap (type : value) : heap :=
  one_message {[ "type" := type; "payload" := VStr "aGk=" ]}.

(** A message with a [type] and no payload: [{"type": type}]. *)
Definition no_payload_heap (type : value) : heap :=
  one_message {[ "type" := type ]}.

(** [{"type": "echo", "payload": <text>}] *)
Definition text_payload_heap (payload : string) : heap :=
  one_message {[ "type" := VStr "echo"; "payload" := VStr payload ]}.

(** ** Notions used to state the behaviour of a whole dispatch *)

Section Reach.

Context {World : Type}.
Implicit Types (self : MessageHandler World) (f : handler World).
Implicit Types (message : loc) (h : heap).

(** The handler [f], registered under the type [t] of the message, is
    reached: validation passes and the payload decodes to [decoded]. *)
Definition reaches_handler self message h (t : string) f (decoded : bytes) : Prop :=
  (h !!! message) !! "type" = Some (VStr t) /\
  function_dictionary self !! t = Some f /\
  exists payload, (h !!! message) !! "payload" = Some payload /\
                  b64decode payload = Return decoded.

(** The keyword arguments the handler is called with: every item of the
    message, the payload decoded. *)
Definition handler_kwargs message h (decoded : bytes) : dict :=
  <["payload" := VBytes decoded]> (h !!! message).

End Reach.

(** A handler that takes any keyword arguments and raises
    [KeyboardInterrupt], a class outside [Exception]. *)
Definition interrupting : handler nat := fun kwargs w =>
  (Raise (BaseException_ EmptyString), S w).

(** The sample dispatcher with the interrupting handler added. *)
Definition interruptible_dispatcher : MessageHandler nat :=
  add_function sample_dispatcher "interrupt" interrupting.

(** A handler that takes any keyword arguments and raises
    [MissingPayloadError], one of the module's own classes. *)
Definition rejecting : handler nat := fun kwargs w =>
  (Raise MissingPayloadError, S w).

(** The sample dispatcher with the rejecting handler added. *)
Definition rejecting_dispatcher : MessageHandler nat :=
  add_function sample_dispatcher "reject" rejecting.


(** A text with one character outside ASCII: [e] with an acute accent. *)
Definition accented_text : string := String (ascii_of_N 233) EmptyString.

(** A message whose payload is any value: [{"type": type, "payload": payload}]. *)
Definition message_heap (type payload : value) : heap :=
  one_message {[ "type" := type; "payload" := payload ]}.

(** A dict with its ['payload'] item set, or removed. *)
Definition alter_payload (payload : option value) (d : dict) : dict :=
  match payload with
  | Some p => <["payload" := p]> d
  | None => delete "payload" d
  end.

(** * Properties *)

Example b2a_hi : Base64.b2a_base64 (bytes_of_string "hi") = bytes_of_string "aGk=".
Proof. reflexivity. Qed.

Example repr_type : py_repr (VStr "type") = "'type'".
Proof. reflexivity. Qed.

(** ** Bytes *)

Lemma to_N_lt_256 (b : byte) : Byte.to_N b < 256.
Proof. pose proof (Byte.to_N_bounded b). lia. Qed.

Lemma byte_of_to_N (b : byte) : byte_of_N (Byte.to_N b) = b.
Proof.
  unfold byte_of_N.
  rewrite N.mod_small by apply to_N_lt_256.
  now rewrite Byte.of_to_N.
Qed.

Lemma forallb_N_below (P : N -> bool) (k : nat) :
  forallb P (N_below k) = true -> forall n, n < N.of_nat k -> P n = true.
Proof.
  intros H n Hn.
  rewrite forallb_forall in H. apply H.
  unfold N_below. apply in_map_iff. exists (N.to_nat n). split.
  - apply N2Nat.id.
  - apply in_seq. lia.
Qed.

Lemma forallb2_N_below (P : N -> N -> bool) (k : nat) :
  forallb (fun a => forallb (P a) (N_below k)) (N_below k) = true ->
  forall a b, a < N.of_nat k -> b < N.of_nat k -> P a b = true.
Proof.
  intros H a b Ha Hb.
  apply (forallb_N_below (P a) k); [|assumption].
  apply (forallb_N_below (fun a => forallb (P a) (N_below k)) k); assumption.
Qed.

(** ** Base64: the alphabet and the bit operations *)

Module Base64Facts.
Import Base64 Base64Groups.

(** An alphabet character is not the pad and maps back to its group. *)
Lemma table_inverse (i : N) :
  i < 64 ->
  (Byte.to_N (table_b2a_base64 i) =? BASE64_PAD) = false /\
  table_a2b_base64 (Byte.to_N (table_b2a_base64 i)) = i.
Proof.
  intros Hi.
  assert (H : (negb (Byte.to_N (table_b2a_base64 i) =? BASE64_PAD)
               && (table_a2b_base64 (Byte.to_N (table_b2a_base64 i)) =? i)) = true).
  { revert i Hi. apply (forallb_N_below _ 64). vm_compute. reflexivity. }
  apply andb_true_iff in H as [H1 H2].
  apply negb_true_iff in H1. apply N.eqb_eq in H2. auto.
Qed.

(** Every alphabet character is ASCII. *)
Lemma table_ascii (i : N) : i < 64 -> Byte.to_N (table_b2a_base64 i) < 128.
Proof.
  intros Hi. apply N.ltb_lt. revert i Hi.
  apply (forallb_N_below _ 64). vm_compute. reflexivity.
Qed.

Lemma group_facts (a b : N) : a < 256 -> b < 256 -> group_check a b = true.
Proof.
  revert a b. apply (forallb2_N_below group_check 256). vm_compute. reflexivity.
Qed.

Lemma s0_lt a : a < 256 -> s0 a < 64.
Proof.
  intros Ha. pose proof (group_facts a 0 Ha eq_refl) as H.
  unfold group_check in H. repeat (apply andb_true_iff in H as [H ?]).
  now apply N.ltb_lt.
Qed.

Lemma s1_lt a b : a < 256 -> b < 256 -> s1 a b < 64.
Proof.
  intros Ha Hb. pose proof (group_facts a b Ha Hb) as H.
  unfold group_check in H. repeat (apply andb_true_iff in H as [H ?]).
  now apply N.ltb_lt.
Qed.

Lemma s2_lt b c : b < 256 -> c < 256 -> s2 b c < 64.
Proof.
  intros Hb Hc. pose proof (group_facts b c Hb Hc) as H.
  unfold group_check in H. repeat (apply andb_true_iff in H as [H ?]).
  now apply N.ltb_lt.
Qed.

Lemma s3_lt c : c < 256 -> s3 c < 64.
Proof.
  intros Hc. pose proof (group_facts c 0 Hc eq_refl) as H.
  unfold group_check in H. repeat (apply andb_true_iff in H as [H ?]).
  now apply N.ltb_lt.
Qed.

(** The first byte comes back from the first two groups. *)
Lemma byte0 a b :
  a < 256 -> b < 256 -> N.lor (N.shiftl (s0 a) 2) (N.shiftr (s1 a b) 4) = a.
Proof.
  intros Ha Hb. pose proof (group_facts a b Ha Hb) as H.
  unfold group_check in H. repeat (apply andb_true_iff in H as [H ?]).
  now apply N.eqb_eq.
Qed.

Lemma left1 a b : a < 256 -> b < 256 -> N.land (s1 a b) 15 = N.shiftr b 4.
Proof.
  intros Ha Hb. pose proof (group_facts a b Ha Hb) as H.
  unfold group_check in H. repeat (apply andb_true_iff in H as [H ?]).
  now apply N.eqb_eq.
Qed.

(** The second byte comes back from the second and third groups. *)
Lemma byte1 b c :
  b < 256 -> c < 256 ->
  N.lor (N.shiftl (N.shiftr b 4) 4) (N.shiftr (s2 b c) 2) = b.
Proof.
  intros Hb Hc. pose proof (group_facts b c Hb Hc) as H.
  unfold group_check in H. repeat (apply andb_true_iff in H as [H ?]).
  now apply N.eqb_eq.
Qed.

Lemma left2 b c : b < 256 -> c < 256 -> N.land (s2 b c) 3 = N.shiftr c 6.
Proof.
  intros Hb Hc. pose proof (group_facts b c Hb Hc) as H.
  unfold group_check in H. repeat (apply andb_true_iff in H as [H ?]).
  now apply N.eqb_eq.
Qed.

(** The third byte comes back from the third and fourth groups. *)
Lemma byte2 c : c < 256 -> N.lor (N.shiftl (N.shiftr c 6) 6) (s3 c) = c.
Proof.
  intros Hc. pose proof (group_facts c 0 Hc eq_refl) as H.
  unfold group_check in H. repeat (apply andb_true_iff in H as [H ?]).
  now apply N.eqb_eq.
Qed.

(** The groups of a padded tail are those of a group completed with 0. *)
Lemma s1_tail a : N.shiftl (N.land a 3) 4 = s1 a 0.
Proof. unfold s1. now rewrite N.shiftr_0_l, N.lor_0_r. Qed.

Lemma s2_tail b : N.shiftl (N.land b 15) 2 = s2 b 0.
Proof. unfold s2. now rewrite N.shiftr_0_l, N.lor_0_r. Qed.

End Base64Facts.

(** ** Base64: decoding what was encoded *)

(** Induction on a list three elements at a time, as [b2a_base64] reads it. *)
Lemma list_ind3 {A : Type} (P : list A -> Prop) :
  P [] -> (forall a, P [a]) -> (forall a b, P [a; b]) ->
  (forall a b c l, P l -> P (a :: b :: c :: l)) ->
  forall l, P l.
Proof.
  intros H0 H1 H2 H3 l.
  assert (H : P l /\ (forall a, P (a :: l)) /\ (forall a b, P (a :: b :: l))).
  { induction l as [|x l IH].
    - auto.
    - destruct IH as (IH0 & IH1 & IH2). repeat split; auto. }
  apply H.
Qed.

Module Base64Roundtrip.
Import Base64 Base64Groups Base64Facts.

(** One step of the loop on an alphabet character. *)
Lemma a2b_loop_data (i : N) rest quad_pos leftchar pads bin_data :
  i < 64 ->
  a2b_loop (table_b2a_base64 i :: rest) quad_pos leftchar pads bin_data =
  match quad_pos with
  | 0%nat => a2b_loop rest 1 i 0 bin_data
  | 1%nat =>
      a2b_loop rest 2 (N.land i 15) 0
        (bin_data ++ [byte_of_N (N.lor (N.shiftl leftchar 2) (N.shiftr i 4))])
  | 2%nat =>
      a2b_loop rest 3 (N.land i 3) 0
        (bin_data ++ [byte_of_N (N.lor (N.shiftl leftchar 4) (N.shiftr i 2))])
  | _ =>
      a2b_loop rest 0 0 0
        (bin_data ++ [byte_of_N (N.lor (N.shiftl leftchar 6) i)])
  end.
Proof.
  intros Hi. destruct (table_inverse i Hi) as [Hpad Htab].
  cbn [a2b_loop]. rewrite Hpad, Htab.
  replace (64 <=? i) with false by (symmetry; apply N.leb_gt; exact Hi).
  reflexivity.
Qed.

(** The loop on a full group of four characters writes the three bytes. *)
Lemma a2b_loop_group (a b c : byte) rest leftchar bin_data :
  a2b_loop
    (table_b2a_base64 (s0 (Byte.to_N a))
     :: table_b2a_base64 (s1 (Byte.to_N a) (Byte.to_N b))
     :: table_b2a_base64 (s2 (Byte.to_N b) (Byte.to_N c))
     :: table_b2a_base64 (s3 (Byte.to_N c)) :: rest) 0 leftchar 0 bin_data =
  a2b_loop rest 0 0 0 (bin_data ++ [a; b; c]).
Proof.
  pose proof (to_N_lt_256 a) as Ha.
  pose proof (to_N_lt_256 b) as Hb.
  pose proof (to_N_lt_256 c) as Hc.
  rewrite a2b_loop_data by (apply s0_lt; assumption).
  rewrite a2b_loop_data by (apply s1_lt; assumption).
  rewrite a2b_loop_data by (apply s2_lt; assumption).
  rewrite a2b_loop_data by (apply s3_lt; assumption).
  rewrite byte0, left1, byte1, left2, byte2 by assumption.
  rewrite !byte_of_to_N, <- !app_assoc. reflexivity.
Qed.

Lemma a2b_loop_b2a (data : bytes) :
  forall leftchar bin_data,
    a2b_loop (b2a_base64 data) 0 leftchar 0 bin_data = inl (bin_data ++ data).
Proof.
  induction data as [|a|a b|a b c data IH] using list_ind3;
    intros leftchar bin_data.
  - cbn. now rewrite app_nil_r.
  - pose proof (to_N_lt_256 a) as Ha.
    cbn [b2a_base64]. rewrite s1_tail. fold (s0 (Byte.to_N a)).
    rewrite a2b_loop_data by (apply s0_lt; assumption).
    rewrite a2b_loop_data by (apply s1_lt; [assumption | reflexivity]).
    rewrite byte0 by (assumption || reflexivity).
    rewrite byte_of_to_N. reflexivity.
  - pose proof (to_N_lt_256 a) as Ha.
    pose proof (to_N_lt_256 b) as Hb.
    cbn [b2a_base64]. rewrite s2_tail.
    fold (s0 (Byte.to_N a)). fold (s1 (Byte.to_N a) (Byte.to_N b)).
    rewrite a2b_loop_data by (apply s0_lt; assumption).
    rewrite a2b_loop_data by (apply s1_lt; assumption).
    rewrite a2b_loop_data by (apply s2_lt; [assumption | reflexivity]).
    rewrite byte0, left1, byte1 by (assumption || reflexivity).
    rewrite !byte_of_to_N, <- !app_assoc. reflexivity.
  - cbn [b2a_base64].
    fold (s0 (Byte.to_N a)). fold (s1 (Byte.to_N a) (Byte.to_N b)).
    fold (s2 (Byte.to_N b) (Byte.to_N c)). fold (s3 (Byte.to_N c)).
    rewrite a2b_loop_group, IH, <- app_assoc. reflexivity.
Qed.

(** [binascii.a2b_base64(binascii.b2a_base64(data, newline=False)) == data] *)
Lemma a2b_b2a (data : bytes) : a2b_base64 (b2a_base64 data) = inl data.
Proof. unfold a2b_base64. now rewrite a2b_loop_b2a. Qed.

(** The encoder writes ASCII characters only. *)
Lemma b2a_base64_ascii (data : bytes) :
  Forall (fun ch => Byte.to_N ch < 128) (b2a_base64 data).
Proof.
  induction data as [|a|a b|a b c data IH] using list_ind3.
  - constructor.
  - pose proof (to_N_lt_256 a) as Ha.
    cbn [b2a_base64]. rewrite s1_tail. fold (s0 (Byte.to_N a)).
    repeat constructor; try (apply table_ascii);
      auto using s0_lt, s1_lt.
    apply s1_lt; [assumption | reflexivity].
  - pose proof (to_N_lt_256 a) as Ha.
    pose proof (to_N_lt_256 b) as Hb.
    cbn [b2a_base64]. rewrite s2_tail.
    fold (s0 (Byte.to_N a)). fold (s1 (Byte.to_N a) (Byte.to_N b)).
    repeat constructor; try (apply table_ascii);
      auto using s0_lt, s1_lt.
    apply s2_lt; [assumption | reflexivity].
  - pose proof (to_N_lt_256 a) as Ha.
    pose proof (to_N_lt_256 b) as Hb.
    pose proof (to_N_lt_256 c) as Hc.
    cbn [b2a_base64].
    fold (s0 (Byte.to_N a)). fold (s1 (Byte.to_N a) (Byte.to_N b)).
    fold (s2 (Byte.to_N b) (Byte.to_N c)). fold (s3 (Byte.to_N c)).
    repeat (constructor; [apply table_ascii; auto using s0_lt, s1_lt, s2_lt, s3_lt|]).
    exact IH.
Qed.

End Base64Roundtrip.

(** ** The transcoder *)

Lemma is_ascii_decode_utf8 (b : bytes) :
  Forall (fun ch => Byte.to_N ch < 128) b -> is_ascii (decode_utf8 b) = true.
Proof.
  intros H. unfold is_ascii, decode_utf8, string_of_list_byte.
  rewrite list_ascii_of_string_of_list_ascii.
  apply forallb_forall. intros c Hc.
  apply in_map_iff in Hc as (x & <- & Hx).
  rewrite Forall_forall in H. specialize (H x).
  rewrite ascii_of_byte_via_N, N_ascii_embedding.
  - apply N.ltb_lt, H. now apply list_elem_of_In.
  - apply to_N_lt_256.
Qed.

(** [b64decode] gives back what [b64encode] was given, also through the
    [str] that [encode_payload] stores. *)
Lemma b64decode_b64encode (P : bytes) :
  b64decode (VStr (decode_utf8 (Base64.b2a_base64 P))) = Return P.
Proof.
  unfold b64decode.
  rewrite is_ascii_decode_utf8 by apply Base64Roundtrip.b2a_base64_ascii.
  unfold bytes_of_string, decode_utf8.
  rewrite list_byte_of_string_of_list_byte.
  now rewrite Base64Roundtrip.a2b_b2a.
Qed.

(** What [decode_payload] does, by cases on the dict it is given. *)
Lemma decode_payload_eq (message : loc) (h : heap) :
  decode_payload message h =
  match (h !!! message) !! "payload" with
  | None => (Raise (KeyError "'payload'"), h)
  | Some payload =>
      match b64decode payload with
      | Return decoded =>
          (Return message,
           <[message := <["payload" := VBytes decoded]> (h !!! message)]> h)
      | Raise e =>
          (Raise (if is_binascii_Error e then PayloadNotBase64Error else e), h)
      end
  end.
Proof.
  unfold decode_payload, try_except_raise, bind, getitem, lift, setitem, ret.
  destruct ((h !!! message) !! "payload") as [payload|]; [|reflexivity].
  destruct (b64decode payload) as [decoded|e]; [reflexivity|].
  destruct (is_binascii_Error e); reflexivity.
Qed.

(** What [encode_payload] does, by cases on the dict it is given. *)
Lemma encode_payload_eq (message : loc) (h : heap) :
  encode_payload message h =
  match (h !!! message) !! "payload" with
  | None => (Raise (KeyError "'payload'"), h)
  | Some payload =>
      match b64encode payload with
      | Return encoded =>
          (Return message,
           <[message := <["payload" := VStr (decode_utf8 encoded)]> (h !!! message)]> h)
      | Raise e =>
          (Raise (if is_binascii_Error e then CantEncodePayloadError else e), h)
      end
  end.
Proof.
  unfold encode_payload, try_except_raise, bind, getitem, lift, setitem, ret.
  destruct ((h !!! message) !! "payload") as [payload|]; [|reflexivity].
  destruct (b64encode payload) as [encoded|e]; [reflexivity|].
  destruct (is_binascii_Error e); reflexivity.
Qed.

(** [b64encode] raises [TypeError] or nothing. *)
Lemma b64encode_raise (v : value) (e : exn) :
  b64encode v = Raise e -> is_binascii_Error e = false /\ is_Exception e = true
                            /\ message_attr e = None /\ is_KeyError e = false.
Proof. destruct v; cbn; intros [= <-]; auto. Qed.

(** A successful in-place update of the payload: the same reference comes
    back, the other keys and the other objects are as before. *)
Lemma setitem_payload_frame (message : loc) (h : heap) (v old : value) :
  (h !!! message) !! "payload" = Some old ->
  let h' := <[message := <["payload" := v]> (h !!! message)]> h in
  (forall k, k ≠ "payload" -> (h' !!! message) !! k = (h !!! message) !! k) /\
  dom (h' !!! message) = dom (h !!! message) /\
  (forall l, l ≠ message -> h' !! l = h !! l).
Proof.
  intros Hold h'. subst h'. rewrite lookup_total_insert_eq. repeat split.
  - intros k Hk. now rewrite lookup_insert_ne.
  - rewrite dom_insert_L.
    apply subseteq_union_1_L, singleton_subseteq_l, elem_of_dom. eauto.
  - intros l Hl. now rewrite lookup_insert_ne.
Qed.

(** C3 (round trip).  For every binary payload [P]: [encode_payload] on a
    message whose payload is [P] succeeds and stores a string, and
    [decode_payload] applied to the message holding that string succeeds and
    stores exactly [P] again; the message object is then as it was. *)
Theorem decode_encode_round_trip (P : bytes) (message : loc) (h : heap) :
  (h !!! message) !! "payload" = Some (VBytes P) ->
  exists h1 : heap,
    encode_payload message h = (Return message, h1) /\
    (h1 !!! message) !! "payload"
      = Some (VStr (decode_utf8 (Base64.b2a_base64 P))) /\
    exists h2 : heap,
      decode_payload message h1 = (Return message, h2) /\
      (h2 !!! message) !! "payload" = Some (VBytes P) /\
      h2 !!! message = h !!! message.
Proof.
  intros HP.
  eexists. split; [|split].
  - rewrite encode_payload_eq, HP. cbn [b64encode]. reflexivity.
  - now rewrite lookup_total_insert_eq, lookup_insert_eq.
  - eexists. split; [|split].
    + rewrite decode_payload_eq, lookup_total_insert_eq, lookup_insert_eq.
      rewrite b64decode_b64encode. reflexivity.
    + now rewrite lookup_total_insert_eq, lookup_insert_eq.
    + rewrite !lookup_total_insert_eq, insert_insert_eq.
      now apply insert_id.
Qed.

Lemma decode_encode_round_trip_witness :
  (hi_heap !!! 1%positive) !! "payload" = Some (VBytes (bytes_of_string "hi")) /\
  exists h1 : heap,
    encode_payload 1%positive hi_heap = (Return 1%positive, h1) /\
    (h1 !!! 1%positive) !! "payload"
      = Some (VStr (decode_utf8 (Base64.b2a_base64 (bytes_of_string "hi")))) /\
    exists h2 : heap,
      decode_payload 1%positive h1 = (Return 1%positive, h2) /\
      (h2 !!! 1%positive) !! "payload" = Some (VBytes (bytes_of_string "hi")) /\
      h2 !!! 1%positive = hi_heap !!! 1%positive.
Proof.
  split; [reflexivity|].
  apply (decode_encode_round_trip (bytes_of_string "hi") 1%positive hi_heap).
  reflexivity.
Defined.

(** C9 (frame).  When [decode_payload] or [encode_payload] succeeds on a
    message, it returns the reference it was given, every key other than
    ['payload'] maps to the value it had, the dict has the same keys, and no
    other dict object changed. *)
Theorem transcoder_frame (message r : loc) (h h' : heap) :
  decode_payload message h = (Return r, h') \/
  encode_payload message h = (Return r, h') ->
  r = message /\
  (forall k, k ≠ "payload" -> (h' !!! message) !! k = (h !!! message) !! k) /\
  dom (h' !!! message) = dom (h !!! message) /\
  (forall l, l ≠ message -> h' !! l = h !! l).
Proof.
  intros [H|H].
  - rewrite decode_payload_eq in H.
    destruct ((h !!! message) !! "payload") as [old|] eqn:Hold; [|discriminate].
    destruct (b64decode old) as [decoded|e]; [|discriminate].
    injection H as Hr Hh; subst r h'. split; [reflexivity|].
    exact (setitem_payload_frame message h _ old Hold).
  - rewrite encode_payload_eq in H.
    destruct ((h !!! message) !! "payload") as [old|] eqn:Hold; [|discriminate].
    destruct (b64encode old) as [encoded|e]; [|discriminate].
    injection H as Hr Hh; subst r h'. split; [reflexivity|].
    exact (setitem_payload_frame message h _ old Hold).
Qed.

Lemma transcoder_frame_witness :
  (decode_payload 1%positive echo_hi_heap
     = (Return 1%positive,
        <[1%positive := <["payload" := VBytes (bytes_of_string "hi")]>
                          (echo_hi_heap !!! 1%positive)]> echo_hi_heap) \/
   encode_payload 1%positive echo_hi_heap
     = (Return 1%positive,
        <[1%positive := <["payload" := VBytes (bytes_of_string "hi")]>
                          (echo_hi_heap !!! 1%positive)]> echo_hi_heap)) /\
  (1%positive = 1%positive /\
   (forall k, k ≠ "payload" ->
      (<[1%positive := <["payload" := VBytes (bytes_of_string "hi")]>
                         (echo_hi_heap !!! 1%positive)]> echo_hi_heap
         !!! 1%positive) !! k
      = (echo_hi_heap !!! 1%positive) !! k) /\
   dom (<[1%positive := <["payload" := VBytes (bytes_of_string "hi")]>
                          (echo_hi_heap !!! 1%positive)]> echo_hi_heap
          !!! 1%positive)
   = dom (echo_hi_heap !!! 1%positive) /\
   (forall l, l ≠ 1%positive ->
      <[1%positive := <["payload" := VBytes (bytes_of_string "hi")]>
                        (echo_hi_heap !!! 1%positive)]> echo_hi_heap !! l
      = echo_hi_heap !! l)).
Proof.
  assert (H : decode_payload 1%positive echo_hi_heap
     = (Return 1%positive,
        <[1%positive := <["payload" := VBytes (bytes_of_string "hi")]>
                          (echo_hi_heap !!! 1%positive)]> echo_hi_heap)).
  { rewrite decode_payload_eq. reflexivity. }
  split; [left; exact H|].
  apply (transcoder_frame 1%positive 1%positive echo_hi_heap _ (or_introl H)).
Defined.

(** ** The dispatcher *)

Section DispatcherFacts.

Context {World : Type}.
Implicit Types (self : MessageHandler World) (f : handler World).
Implicit Types (message : loc) (h : heap) (w : World) (s : heap * World).
Implicit Types (e : exn) (v : value).

(** An exception below [Exception] is caught by one of the three clauses:
    a new error reply is returned. *)
Lemma except_clauses_Exception e (reply : option loc) s :
  is_Exception e = true ->
  except_clauses e reply s =
  (Return (fresh (dom (fst s))),
   (<[fresh (dom (fst s)) := error_reply (error_text e)]> (fst s), snd s)).
Proof.
  intros He. unfold except_clauses, error_text.
  destruct (message_attr e) as [m|]; [reflexivity|].
  destruct (is_KeyError e); [reflexivity|].
  rewrite He. reflexivity.
Qed.

(** Any other exception reaches [finally] with no clause run. *)
Lemma except_clauses_other e (reply : option loc) s :
  is_Exception e = false ->
  except_clauses e reply s = finally_return reply s.
Proof.
  intros He. unfold except_clauses.
  destruct e; try discriminate He. reflexivity.
Qed.

(** The [try] suite raising before [reply] is bound. *)
Lemma generate_reply_raised self message s e s1 :
  invoke self message s = (Raise e, s1) ->
  generate_reply self message s = except_clauses e None s1.
Proof. intros H. unfold generate_reply. now rewrite H. Qed.

Lemma reply_of_raised self message s e s1 :
  invoke self message s = (Raise e, s1) ->
  is_Exception e = true ->
  reply_of (generate_reply self message s) = Some (error_reply (error_text e)) /\
  world_of (generate_reply self message s) = snd s1.
Proof.
  intros H He. rewrite (generate_reply_raised _ _ _ _ _ H).
  rewrite except_clauses_Exception by assumption.
  cbn. now rewrite lookup_total_insert_eq.
Qed.

(** The handler returned: the reply is the success envelope, encoded, or an
    error reply if encoding raised. *)
Lemma reply_of_returned self message s v s1 :
  invoke self message s = (Return v, s1) ->
  reply_of (generate_reply self message s) =
    Some (match b64encode v with
          | Return encoded => ok_reply (VStr (decode_utf8 encoded))
          | Raise e => error_reply (error_text e)
          end) /\
  world_of (generate_reply self message s) = snd s1.
Proof.
  intros H. destruct s1 as [h1 w1].
  unfold generate_reply. rewrite H.
  unfold on_heap, new_dict. cbn [fst snd].
  rewrite encode_payload_eq, lookup_total_insert_eq.
  replace (ok_reply v !! "payload") with (Some v) by reflexivity.
  destruct (b64encode v) as [encoded|e] eqn:Henc.
  - cbn. rewrite !lookup_total_insert_eq. split; reflexivity.
  - destruct (b64encode_raise _ _ Henc) as (Hb & He & _).
    rewrite Hb, except_clauses_Exception by assumption.
    cbn. now rewrite lookup_total_insert_eq.
Qed.

(** *** The [try] suite up to the handler's return *)

Lemma invoke_no_type self message h w :
  (h !!! message) !! "type" = None ->
  invoke self message (h, w) = (Raise (KeyError "'type'"), (h, w)).
Proof.
  intros H. unfold invoke, bind, on_heap, validate_json, bind, getitem.
  cbn [fst snd]. now rewrite H.
Qed.

Lemma invoke_contains_raise self message h w v e :
  (h !!! message) !! "type" = Some v ->
  dict_contains (function_dictionary self) v = Raise e ->
  invoke self message (h, w) = (Raise e, (h, w)).
Proof.
  intros H Hc. unfold invoke, bind, on_heap, validate_json, bind, getitem, lift.
  cbn [fst snd]. now rewrite H, Hc.
Qed.

Lemma invoke_unrecognized self message h w v :
  (h !!! message) !! "type" = Some v ->
  dict_contains (function_dictionary self) v = Return false ->
  invoke self message (h, w) = (Raise UnrecognizedFileTypeError, (h, w)).
Proof.
  intros H Hc. unfold invoke, bind, on_heap, validate_json, bind, getitem, lift.
  cbn [fst snd]. now rewrite H, Hc.
Qed.

(** With a registered type, the message is decoded in place and the
    handler is called on all its items. *)
Lemma invoke_registered self message h w (t : string) f :
  (h !!! message) !! "type" = Some (VStr t) ->
  function_dictionary self !! t = Some f ->
  invoke self message (h, w) =
  match decode_payload message h with
  | (Return _, h1) =>
      match f (h1 !!! message) w with
      | (o, w') => (o, (h1, w'))
      end
  | (Raise e, h1) => (Raise e, (h1, w))
  end.
Proof.
  intros H Hf. rewrite decode_payload_eq.
  unfold invoke, bind, on_heap, validate_json, bind, getitem, lift.
  cbn [fst snd]. rewrite H. cbn [dict_contains].
  rewrite bool_decide_eq_true_2 by (rewrite Hf; eauto).
  cbn [negb ret]. rewrite decode_payload_eq. cbn [fst snd].
  destruct ((h !!! message) !! "payload") as [payload|]; [|reflexivity].
  destruct (b64decode payload) as [decoded|e]; [|reflexivity].
  cbn [fst snd].
  rewrite lookup_total_insert_eq, lookup_insert_ne by discriminate.
  rewrite H. cbn [dict_subscript hashable]. rewrite Hf.
  unfold unpack, on_world. cbn [fst snd].
  rewrite lookup_total_insert_eq. reflexivity.
Qed.

End DispatcherFacts.

(** ** What the pipeline itself can raise *)

Lemma b64decode_raise (v : value) (e : exn) :
  b64decode v = Raise e ->
  is_Exception e = true /\ message_attr e = None /\ is_KeyError e = false.
Proof.
  unfold b64decode. intros H.
  destruct v; try (injection H as <-; auto).
  - destruct (is_ascii s); [|injection H as <-; auto].
    destruct (Base64.a2b_base64 _); [discriminate|]. injection H as <-; auto.
  - destruct (Base64.a2b_base64 _); [discriminate|]. injection H as <-; auto.
Qed.

Lemma decode_payload_raise (message : loc) (h h1 : heap) (e : exn) :
  decode_payload message h = (Raise e, h1) ->
  is_Exception e = true /\ e ≠ MissingPayloadError /\ h1 = h.
Proof.
  rewrite decode_payload_eq. intros H.
  destruct ((h !!! message) !! "payload") as [payload|].
  - destruct (b64decode payload) as [decoded|e0] eqn:Hd; [discriminate|].
    destruct (b64decode_raise _ _ Hd) as (He & Hm & _).
    injection H as <- <-.
    destruct (is_binascii_Error e0); repeat split; auto; try discriminate.
    intros ->. discriminate.
  - injection H as <- <-. repeat split; auto; discriminate.
Qed.

Lemma encode_payload_raise (message : loc) (h h1 : heap) (e : exn) :
  encode_payload message h = (Raise e, h1) ->
  is_Exception e = true /\ e ≠ MissingPayloadError /\ e ≠ CantEncodePayloadError.
Proof.
  rewrite encode_payload_eq. intros H.
  destruct ((h !!! message) !! "payload") as [payload|].
  - destruct (b64encode payload) as [encoded|e0] eqn:He; [discriminate|].
    destruct (b64encode_raise _ _ He) as (Hb & Hx & Hm & _).
    rewrite Hb in H. injection H as <- _.
    repeat split; auto; intros ->; discriminate.
  - injection H as <- _. repeat split; auto; discriminate.
Qed.

Section DispatcherProperties.

Context {World : Type}.
Implicit Types (self : MessageHandler World) (f : handler World).
Implicit Types (message : loc) (h : heap) (w : World) (s : heap * World).
Implicit Types (e : exn) (v : value) (t : string).

(** The registry test of [validate_json] on a value that is a key. *)
Lemma dict_contains_true (d : gmap string (handler World)) v :
  dict_contains d v = Return true -> exists t f, v = VStr t /\ d !! t = Some f.
Proof.
  destruct v; cbn; try discriminate;
    try (destruct (hashable _); discriminate).
  intros [= H]. apply bool_decide_eq_true in H as [f Hf]. eauto.
Qed.

(** The registry test on a hashable value that is not a key. *)
Lemma dict_contains_false (d : gmap string (handler World)) v :
  hashable v = true ->
  (forall t, v = VStr t -> d !! t = None) ->
  dict_contains d v = Return false.
Proof.
  intros Hh Hkey. destruct v; try reflexivity; try discriminate Hh.
  cbn. rewrite bool_decide_eq_false_2; [reflexivity|].
  rewrite (Hkey s eq_refl). intros [? ?]. discriminate.
Qed.

Lemma dict_contains_raise (d : gmap string (handler World)) v e :
  dict_contains d v = Raise e ->
  is_Exception e = true /\ message_attr e = None /\ is_KeyError e = false
  /\ hashable v = false.
Proof.
  destruct v; cbn; try discriminate. intros [= <-]. auto.
Qed.

(** What the [try] suite can raise before [reply] is bound. *)
Lemma invoke_raise self message h w e s1 :
  raises_only_Exception self ->
  invoke self message (h, w) = (Raise e, s1) ->
  is_Exception e = true.
Proof.
  intros Hself H.
  destruct ((h !!! message) !! "type") as [v|] eqn:Ht.
  - destruct (dict_contains (function_dictionary self) v) as [[|]|e0] eqn:Hc.
    + destruct (dict_contains_true _ _ Hc) as (t & f & -> & Hf).
      rewrite (invoke_registered _ _ _ _ _ _ Ht Hf) in H.
      destruct (decode_payload message h) as [[m|e0] h1] eqn:Hd.
      * destruct (f (h1 !!! message) w) as [o w'] eqn:Hcall.
        injection H as -> _. exact (Hself _ _ _ _ _ _ Hf Hcall).
      * injection H as <- _. now destruct (decode_payload_raise _ _ _ _ Hd).
    + rewrite (invoke_unrecognized _ _ _ _ _ Ht Hc) in H.
      injection H as <- _. reflexivity.
    + rewrite (invoke_contains_raise _ _ _ _ _ _ Ht Hc) in H.
      injection H as <- _. now destruct (dict_contains_raise _ _ _ Hc).
  - rewrite (invoke_no_type _ _ _ _ Ht) in H. injection H as <- _. reflexivity.
Qed.

Lemma ok_reply_well_formed v : well_formed_reply (ok_reply v).
Proof.
  unfold well_formed_reply, ok_reply. split; [|split].
  - left. reflexivity.
  - rewrite lookup_insert_ne by discriminate. rewrite lookup_singleton_eq. eauto.
  - now rewrite dom_insert_L, dom_singleton_L.
Qed.

Lemma error_reply_well_formed (text : string) : well_formed_reply (error_reply text).
Proof.
  unfold well_formed_reply, error_reply. split; [|split].
  - right. reflexivity.
  - rewrite lookup_insert_ne by discriminate. rewrite lookup_singleton_eq. eauto.
  - now rewrite dom_insert_L, dom_singleton_L.
Qed.

(** Replies under handlers that raise inside [Exception].  For every
    message dict, whatever keys it has, and every registry whose handlers
    raise nothing outside [Exception], [generate_reply] returns a dict
    with ['status'] and ['payload'] set, the status being ["ok"] or
    ["error"]. *)
Theorem generate_reply_total self message h w :
  raises_only_Exception self ->
  exists reply : dict,
    reply_of (generate_reply self message (h, w)) = Some reply /\
    well_formed_reply reply.
Proof.
  intros Hself.
  destruct (invoke self message (h, w)) as [[v|e] s1] eqn:Hinv.
  - destruct (reply_of_returned _ _ _ _ _ Hinv) as [Hr _].
    eexists. split; [exact Hr|].
    destruct (b64encode v);
      [apply ok_reply_well_formed | apply error_reply_well_formed].
  - pose proof (invoke_raise _ _ _ _ _ _ Hself Hinv) as He.
    destruct (reply_of_raised _ _ _ _ _ Hinv He) as [Hr _].
    eexists. split; [exact Hr|]. apply error_reply_well_formed.
Qed.

(** *** The handler is reached *)

(** With a registered type and a payload that decodes, the handler is
    called on the items of the message, the payload now decoded. *)
Lemma invoke_handler self message h w t f (payload : value) (decoded : bytes) :
  (h !!! message) !! "type" = Some (VStr t) ->
  function_dictionary self !! t = Some f ->
  (h !!! message) !! "payload" = Some payload ->
  b64decode payload = Return decoded ->
  invoke self message (h, w) =
  match f (<["payload" := VBytes decoded]> (h !!! message)) w with
  | (o, w') =>
      (o, (<[message := <["payload" := VBytes decoded]> (h !!! message)]> h, w'))
  end.
Proof.
  intros Ht Hf Hp Hd.
  rewrite (invoke_registered _ _ _ _ _ _ Ht Hf), decode_payload_eq, Hp, Hd.
  now rewrite lookup_total_insert_eq.
Qed.

(** C2 (happy path).  With a handler registered under ["echo"] that
    returns the payload it is given, dispatching a message of type
    ["echo"] whose payload is the encoding of [P] returns the success
    reply whose payload is the encoding of [P] again. *)
Theorem echo_happy_path self f message h w (P : bytes) :
  function_dictionary self !! "echo" = Some f ->
  (forall kwargs w0 p, kwargs !! "payload" = Some p ->
                       fst (f kwargs w0) = Return p) ->
  (h !!! message) !! "type" = Some (VStr "echo") ->
  (h !!! message) !! "payload"
    = Some (VStr (decode_utf8 (Base64.b2a_base64 P))) ->
  reply_of (generate_reply self message (h, w))
    = Some (ok_reply (VStr (decode_utf8 (Base64.b2a_base64 P)))).
Proof.
  intros Hf Hecho Ht Hp.
  pose proof (invoke_handler _ _ _ w _ _ _ _ Ht Hf Hp (b64decode_b64encode P))
    as Hinv.
  specialize (Hecho (<["payload" := VBytes P]> (h !!! message)) w (VBytes P)
                (lookup_insert_eq _ _ _)).
  destruct (f _ w) as [o w'] eqn:Hcall. cbn in Hecho. subst o.
  destruct (reply_of_returned _ _ _ _ _ Hinv) as [Hr _].
  exact Hr.
Qed.

(** *** Error replies *)

(** The handler raised: the reply carries the text of the clause that
    caught the exception, and the world is as the handler left it. *)
Lemma reply_of_handler_raise self message h w t f payload decoded e w' :
  (h !!! message) !! "type" = Some (VStr t) ->
  function_dictionary self !! t = Some f ->
  (h !!! message) !! "payload" = Some payload ->
  b64decode payload = Return decoded ->
  f (<["payload" := VBytes decoded]> (h !!! message)) w = (Raise e, w') ->
  is_Exception e = true ->
  reply_of (generate_reply self message (h, w)) = Some (error_reply (error_text e)) /\
  world_of (generate_reply self message (h, w)) = w'.
Proof.
  intros Ht Hf Hp Hd Hcall He.
  pose proof (invoke_handler _ _ _ w _ _ _ _ Ht Hf Hp Hd) as Hinv.
  rewrite Hcall in Hinv.
  exact (reply_of_raised _ _ _ _ _ Hinv He).
Qed.

(** C10 (a handler's own [KeyError]).  When the registered handler raises
    [KeyError], whatever its reason, the reply is the missing-field reply
    built from the text of that [KeyError], and it is not the
    ["Server error: "] reply. *)
Theorem handler_KeyError_reply self message h w t f payload decoded text w' :
  (h !!! message) !! "type" = Some (VStr t) ->
  function_dictionary self !! t = Some f ->
  (h !!! message) !! "payload" = Some payload ->
  b64decode payload = Return decoded ->
  f (<["payload" := VBytes decoded]> (h !!! message)) w
    = (Raise (KeyError text), w') ->
  reply_of (generate_reply self message (h, w))
    = Some (error_reply ("JSON object missing required field" +:+ text)) /\
  reply_of (generate_reply self message (h, w))
    ≠ Some (error_reply ("Server error: " +:+ text)).
Proof.
  intros Ht Hf Hp Hd Hcall.
  destruct (reply_of_handler_raise _ _ _ _ _ _ _ _ _ _ Ht Hf Hp Hd Hcall eq_refl)
    as [Hr _].
  split; [exact Hr|]. rewrite Hr. cbn [error_text message_attr is_KeyError str_exn].
  intros [=].
Qed.

(** C7, amended (handler fault isolation).  When the registered handler
    raises an exception below [Exception] that is neither a [KeyError]
    nor one of the four error classes of the module, the reply is the
    ["Server error: "] reply with the text of the exception. *)
Theorem handler_fault_reply self message h w t f payload decoded e w' :
  (h !!! message) !! "type" = Some (VStr t) ->
  function_dictionary self !! t = Some f ->
  (h !!! message) !! "payload" = Some payload ->
  b64decode payload = Return decoded ->
  f (<["payload" := VBytes decoded]> (h !!! message)) w = (Raise e, w') ->
  is_Exception e = true ->
  is_KeyError e = false ->
  message_attr e = None ->
  reply_of (generate_reply self message (h, w))
    = Some (error_reply ("Server error: " +:+ str_exn e)).
Proof.
  intros Ht Hf Hp Hd Hcall He Hk Hm.
  destruct (reply_of_handler_raise _ _ _ _ _ _ _ _ _ _ Ht Hf Hp Hd Hcall He)
    as [Hr _].
  rewrite Hr. unfold error_text. now rewrite Hm, Hk.
Qed.

(** C6, amended (unrecognized type).  When the ['type'] value is hashable
    and is not a key of the registry, the reply is exactly the
    ["File type not recognized"] error reply, and no handler ran: the
    world is as it was, whatever the handlers would do to it. *)
Theorem unrecognized_type_reply self message h w v :
  (h !!! message) !! "type" = Some v ->
  hashable v = true ->
  (forall t, v = VStr t -> function_dictionary self !! t = None) ->
  reply_of (generate_reply self message (h, w))
    = Some (error_reply "File type not recognized") /\
  world_of (generate_reply self message (h, w)) = w.
Proof.
  intros Ht Hh Hkey.
  pose proof (invoke_unrecognized self _ _ w _ Ht (dict_contains_false _ _ Hh Hkey))
    as Hinv.
  exact (reply_of_raised _ _ _ _ _ Hinv eq_refl).
Qed.

(** *** Missing fields *)


(** [generate_reply] returns, or raises the [UnboundLocalError] of its
    [finally] clause. *)
Lemma generate_reply_outcome self message s :
  (exists r, fst (generate_reply self message s) = Return r) \/
  (exists msg, fst (generate_reply self message s) = Raise (UnboundLocalError msg)).
Proof.
  unfold generate_reply.
  destruct (invoke self message s) as [[v|e] s1].
  - unfold on_heap, new_dict. cbn [fst snd].
    destruct (encode_payload _ _) as [[r|e] h3] eqn:Henc.
    + left. eexists. reflexivity.
    + destruct (encode_payload_raise _ _ _ _ Henc) as (He & _).
      rewrite except_clauses_Exception by assumption. left. eexists. reflexivity.
  - destruct (is_Exception e) eqn:He.
    + rewrite except_clauses_Exception by assumption. left. eexists. reflexivity.
    + rewrite except_clauses_other by assumption. right. eexists. reflexivity.
Qed.



(** *** Payloads that are not base64 *)

(** The loop skips every other character. *)
Lemma a2b_loop_filter (data : bytes) :
  forall quad_pos leftchar pads bin_data,
    Base64.a2b_loop (List.filter is_base64_char data) quad_pos leftchar pads bin_data
    = Base64.a2b_loop data quad_pos leftchar pads bin_data.
Proof.
  induction data as [|ch data IH]; intros quad_pos leftchar pads bin_data.
  - reflexivity.
  - cbn [List.filter]. destruct (is_base64_char ch) eqn:Hch.
    + cbn [Base64.a2b_loop].
      destruct (Byte.to_N ch =? Base64.BASE64_PAD).
      * destruct (Nat.leb 2 quad_pos); [|apply IH].
        destruct (Nat.leb 4 (quad_pos + S pads)); [reflexivity|apply IH].
      * destruct (64 <=? Base64.table_a2b_base64 (Byte.to_N ch)); [apply IH|].
        destruct quad_pos as [|[|[|]]]; apply IH.
    + cbn [Base64.a2b_loop]. unfold is_base64_char in Hch.
      apply orb_false_iff in Hch as [Hpad Htab].
      rewrite Hpad. apply N.ltb_ge in Htab. apply N.leb_le in Htab.
      rewrite Htab. apply IH.
Qed.

Lemma a2b_base64_filter (data : bytes) :
  Base64.a2b_base64 (List.filter is_base64_char data) = Base64.a2b_base64 data.
Proof. apply a2b_loop_filter. Qed.

(** C4, amended (payloads that are not base64).  For an ASCII string
    payload, [decode_payload] reads only the characters of the alphabet
    and the pad: it raises [PayloadNotBase64Error] exactly when those
    characters alone are rejected by [a2b_base64], and otherwise succeeds
    with what they decode to.  When it raises so on a message whose type
    is registered, the reply is the
    ["Message payload cannot be decoded from base64"] error reply and the
    handler did not run. *)
Theorem decode_reads_alphabet_only self message h w (payload : string) :
  (h !!! message) !! "payload" = Some (VStr payload) ->
  is_ascii payload = true ->
  (fst (decode_payload message h) = Raise PayloadNotBase64Error <->
   exists msg,
     Base64.a2b_base64 (List.filter is_base64_char (bytes_of_string payload))
     = inr msg) /\
  (forall decoded,
     Base64.a2b_base64 (List.filter is_base64_char (bytes_of_string payload))
     = inl decoded ->
     exists h', decode_payload message h = (Return message, h') /\
                (h' !!! message) !! "payload" = Some (VBytes decoded)) /\
  (forall t f,
     (h !!! message) !! "type" = Some (VStr t) ->
     function_dictionary self !! t = Some f ->
     fst (decode_payload message h) = Raise PayloadNotBase64Error ->
     reply_of (generate_reply self message (h, w))
       = Some (error_reply "Message payload cannot be decoded from base64") /\
     world_of (generate_reply self message (h, w)) = w).
Proof.
  intros Hp Hascii.
  rewrite a2b_base64_filter, decode_payload_eq, Hp.
  unfold b64decode. rewrite Hascii.
  destruct (Base64.a2b_base64 (bytes_of_string payload)) as [decoded|msg] eqn:Ha.
  - split; [|split].
    + cbn. split; [discriminate|]. intros [msg Hmsg]. discriminate Hmsg.
    + intros ? [= <-]. eexists. split; [reflexivity|].
      now rewrite lookup_total_insert_eq, lookup_insert_eq.
    + intros t f _ _ H. discriminate H.
  - split; [|split].
    + cbn. split; eauto.
    + intros ? [=].
    + intros t f Ht Hf _.
      pose proof (invoke_registered _ _ _ w _ _ Ht Hf) as Hinv.
      rewrite decode_payload_eq, Hp in Hinv.
      unfold b64decode in Hinv. rewrite Hascii, Ha in Hinv. cbn in Hinv.
      exact (reply_of_raised _ _ _ _ _ Hinv eq_refl).
Qed.

(** *** Results that cannot be encoded *)

(** On the values of the model [encode_payload] does not raise
    [CantEncodePayloadError]: for a payload that is not [bytes],
    [b64encode] raises [TypeError], which the [except binascii.Error]
    clause does not catch. *)
Lemma encode_payload_never_CantEncode (message : loc) h :
  fst (encode_payload message h) ≠ Raise CantEncodePayloadError.
Proof.
  destruct (encode_payload message h) as [[u|e] h1] eqn:H; [discriminate|].
  cbn. intros [= ->]. now destruct (encode_payload_raise _ _ _ _ H) as (_ & _ & Hne).
Qed.

(** The handler returned a value that is not [bytes]: the reply is the
    ["Server error: "] reply with the text of the [TypeError]. *)
Lemma unencodable_result_reply self message h w t f payload decoded v w' :
  (h !!! message) !! "type" = Some (VStr t) ->
  function_dictionary self !! t = Some f ->
  (h !!! message) !! "payload" = Some payload ->
  b64decode payload = Return decoded ->
  f (<["payload" := VBytes decoded]> (h !!! message)) w = (Return v, w') ->
  (forall b, v ≠ VBytes b) ->
  reply_of (generate_reply self message (h, w))
    = Some (error_reply ("Server error: a bytes-like object is required, not "
                         +:+ py_repr (VStr (type_name v)))).
Proof.
  intros Ht Hf Hp Hd Hcall Hv.
  pose proof (invoke_handler _ _ _ w _ _ _ _ Ht Hf Hp Hd) as Hinv.
  rewrite Hcall in Hinv.
  destruct (reply_of_returned _ _ _ _ _ Hinv) as [Hr _]. rewrite Hr.
  destruct v; try reflexivity. now destruct (Hv b).
Qed.

End DispatcherProperties.

(** ** The properties at sample registries and messages *)

Lemma sample_dispatcher_lookup (t : string) (f : handler nat) :
  function_dictionary sample_dispatcher !! t = Some f ->
  f = echo \/ f = needs_name \/ f = failing \/ f = describe.
Proof.
  unfold sample_dispatcher, add_function, init. cbn [function_dictionary].
  intros H.
  repeat (apply lookup_insert_Some in H as [[_ Heq]|[_ H]]; [subst f; tauto|]).
  rewrite lookup_empty in H. discriminate H.
Qed.

Lemma sample_dispatcher_raises_only_Exception :
  raises_only_Exception sample_dispatcher.
Proof.
  intros t f kwargs w e w' Hf Hcall.
  destruct (sample_dispatcher_lookup t f Hf) as [-> | [-> | [-> | ->]]].
  - unfold echo in Hcall. destruct (kwargs !! "payload"); now inversion Hcall.
  - unfold needs_name in Hcall. destruct (kwargs !! "name"); now inversion Hcall.
  - now inversion Hcall.
  - now inversion Hcall.
Qed.

Lemma generate_reply_total_witness :
  raises_only_Exception sample_dispatcher /\
  exists reply : dict,
    reply_of (generate_reply sample_dispatcher 1%positive (echo_hi_heap, 0%nat))
      = Some reply /\
    well_formed_reply reply.
Proof.
  split; [exact sample_dispatcher_raises_only_Exception|].
  apply (generate_reply_total sample_dispatcher 1%positive echo_hi_heap 0%nat).
  exact sample_dispatcher_raises_only_Exception.
Defined.

Lemma echo_returns_payload (kwargs : dict) (w0 : nat) (p : value) :
  kwargs !! "payload" = Some p -> fst (echo kwargs w0) = Return p.
Proof. intros H. unfold echo. now rewrite H. Qed.

Lemma echo_happy_path_witness :
  (echo_hi_heap !!! 1%positive) !! "payload" = Some (VStr "aGk=") /\
  reply_of (generate_reply sample_dispatcher 1%positive (echo_hi_heap, 0%nat))
    = Some (ok_reply (VStr "aGk=")).
Proof.
  split; [reflexivity|].
  apply (echo_happy_path sample_dispatcher echo 1%positive echo_hi_heap 0%nat
           (bytes_of_string "hi")).
  - reflexivity.
  - exact echo_returns_payload.
  - reflexivity.
  - reflexivity.
Defined.

Lemma handler_KeyError_reply_witness :
  reply_of (generate_reply sample_dispatcher 1%positive
              (typed_hi_heap (VStr "named"), 0%nat))
    = Some (error_reply "JSON object missing required field'name'") /\
  reply_of (generate_reply sample_dispatcher 1%positive
              (typed_hi_heap (VStr "named"), 0%nat))
    ≠ Some (error_reply "Server error: 'name'").
Proof.
  apply (handler_KeyError_reply sample_dispatcher 1%positive
           (typed_hi_heap (VStr "named")) 0%nat "named" needs_name
           (VStr "aGk=") (bytes_of_string "hi") "'name'" 1%nat);
    reflexivity.
Defined.

Lemma handler_fault_reply_witness :
  reply_of (generate_reply sample_dispatcher 1%positive
              (typed_hi_heap (VStr "failing"), 0%nat))
    = Some (error_reply "Server error: boom").
Proof.
  apply (handler_fault_reply sample_dispatcher 1%positive
           (typed_hi_heap (VStr "failing")) 0%nat "failing" failing
           (VStr "aGk=") (bytes_of_string "hi") (Exception_ "boom") 1%nat);
    reflexivity.
Defined.

(** C7, as stated, fails: a handler that raises [KeyError] is answered with
    the missing-field reply, not with the ["Server error: "] reply. *)
Lemma handler_fault_not_always_server_error :
  needs_name (<["payload" := VBytes (bytes_of_string "hi")]>
                (typed_hi_heap (VStr "named") !!! 1%positive)) 0%nat
    = (Raise (KeyError "'name'"), 1%nat) /\
  reply_of (generate_reply sample_dispatcher 1%positive
              (typed_hi_heap (VStr "named"), 0%nat))
    = Some (error_reply "JSON object missing required field'name'") /\
  reply_of (generate_reply sample_dispatcher 1%positive
              (typed_hi_heap (VStr "named"), 0%nat))
    ≠ Some (error_reply ("Server error: " +:+ str_exn (KeyError "'name'"))).
Proof.
  split; [reflexivity|]. split; [reflexivity|].
  vm_compute. intros [=].
Qed.

Lemma unrecognized_type_reply_witness :
  (typed_hi_heap (VStr "nonexistent") !!! 1%positive) !! "type"
    = Some (VStr "nonexistent") /\
  reply_of (generate_reply sample_dispatcher 1%positive
              (typed_hi_heap (VStr "nonexistent"), 0%nat))
    = Some (error_reply "File type not recognized") /\
  world_of (generate_reply sample_dispatcher 1%positive
              (typed_hi_heap (VStr "nonexistent"), 0%nat)) = 0%nat.
Proof.
  split; [reflexivity|].
  apply (unrecognized_type_reply sample_dispatcher 1%positive
           (typed_hi_heap (VStr "nonexistent")) 0%nat (VStr "nonexistent")).
  - reflexivity.
  - reflexivity.
  - intros t [= <-]. reflexivity.
Defined.

(** C6, as stated, fails: a ['type'] value that is a list is not a key of
    the registry, and the reply is a ["Server error: "] reply. *)
Lemma unhashable_type_not_unrecognized :
  (typed_hi_heap (VList []) !!! 1%positive) !! "type" = Some (VList []) /\
  (forall t, VList [] = VStr t ->
             function_dictionary sample_dispatcher !! t = None) /\
  reply_of (generate_reply sample_dispatcher 1%positive
              (typed_hi_heap (VList []), 0%nat))
    = Some (error_reply "Server error: unhashable type: 'list'") /\
  reply_of (generate_reply sample_dispatcher 1%positive
              (typed_hi_heap (VList []), 0%nat))
    ≠ Some (error_reply "File type not recognized").
Proof.
  split; [reflexivity|]. split; [intros t [=]|]. split; [reflexivity|].
  vm_compute. intros [=].
Qed.




Lemma decode_reads_alphabet_only_witness :
  ((text_payload_heap "ab!c" !!! 1%positive) !! "payload" = Some (VStr "ab!c") /\
   is_ascii "ab!c" = true) /\
  (fst (decode_payload 1%positive (text_payload_heap "ab!c"))
     = Raise PayloadNotBase64Error <->
   exists msg,
     Base64.a2b_base64 (List.filter is_base64_char (bytes_of_string "ab!c"))
     = inr msg) /\
  (forall decoded,
     Base64.a2b_base64 (List.filter is_base64_char (bytes_of_string "ab!c"))
     = inl decoded ->
     exists h', decode_payload 1%positive (text_payload_heap "ab!c")
                  = (Return 1%positive, h') /\
                (h' !!! 1%positive) !! "payload" = Some (VBytes decoded)) /\
  (forall t f,
     (text_payload_heap "ab!c" !!! 1%positive) !! "type" = Some (VStr t) ->
     function_dictionary sample_dispatcher !! t = Some f ->
     fst (decode_payload 1%positive (text_payload_heap "ab!c"))
       = Raise PayloadNotBase64Error ->
     reply_of (generate_reply sample_dispatcher 1%positive
                 (text_payload_heap "ab!c", 0%nat))
       = Some (error_reply "Message payload cannot be decoded from base64") /\
     world_of (generate_reply sample_dispatcher 1%positive
                 (text_payload_heap "ab!c", 0%nat)) = 0%nat).
Proof.
  split; [split; reflexivity|].
  apply (decode_reads_alphabet_only sample_dispatcher 1%positive
           (text_payload_heap "ab!c") 0%nat "ab!c"); reflexivity.
Defined.

(** The reply to the sample payload ["ab!c"]: its alphabet characters,
    ["abc"], are one short of a group of four. *)
Example bad_padding_reply :
  reply_of (generate_reply sample_dispatcher 1%positive
              (text_payload_heap "ab!c", 0%nat))
    = Some (error_reply "Message payload cannot be decoded from base64").
Proof. reflexivity. Qed.

(** C4, as stated, fails: ["not-valid-encoding!!"] has characters outside
    the alphabet, and [decode_payload] succeeds on it, with the twelve bytes
    that ["notvalidencoding"] decodes to; the dispatch to the echo handler
    returns a success reply. *)
Lemma not_valid_encoding_is_decoded :
  string_contains "-"%char "not-valid-encoding!!" = true /\
  is_base64_char (byte_of_N 45) = false /\
  fst (decode_payload 1%positive (text_payload_heap "not-valid-encoding!!"))
    = Return 1%positive /\
  fst (decode_payload 1%positive (text_payload_heap "not-valid-encoding!!"))
    ≠ Raise PayloadNotBase64Error /\
  (snd (decode_payload 1%positive (text_payload_heap "not-valid-encoding!!"))
     !!! 1%positive) !! "payload"
    = Some (VBytes (map byte_of_N [158; 139; 111; 106; 88; 157; 122; 119; 40; 118; 41; 224])) /\
  reply_of (generate_reply sample_dispatcher 1%positive
              (text_payload_heap "not-valid-encoding!!", 0%nat))
    = Some (ok_reply (VStr "notvalidencoding")) /\
  reply_of (generate_reply sample_dispatcher 1%positive
              (text_payload_heap "not-valid-encoding!!", 0%nat))
    ≠ Some (error_reply "Message payload cannot be decoded from base64").
Proof.
  repeat (split; [reflexivity|]).
  split; [vm_compute; intros [=]|].
  repeat (split; [reflexivity|]).
  vm_compute. intros [=].
Qed.

(** C8: the code at a handler result that cannot be encoded.  The handler
    registered under ["describe"] returns a [str]; [encode_payload] raises
    the [TypeError] of [b64encode], not [CantEncodePayloadError], and the
    reply is a ["Server error: "] reply instead of the
    ["Cannot encode payload into base64"] reply. *)
Theorem unencodable_result_is_server_error :
  describe (<["payload" := VBytes (bytes_of_string "hi")]>
              (typed_hi_heap (VStr "describe") !!! 1%positive)) 0%nat
    = (Return (VStr "done"), 1%nat) /\
  fst (encode_payload 1%positive (one_message (ok_reply (VStr "done"))))
    = Raise (TypeError "a bytes-like object is required, not 'str'") /\
  reply_of (generate_reply sample_dispatcher 1%positive
              (typed_hi_heap (VStr "describe"), 0%nat))
    = Some (error_reply "Server error: a bytes-like object is required, not 'str'") /\
  reply_of (generate_reply sample_dispatcher 1%positive
              (typed_hi_heap (VStr "describe"), 0%nat))
    ≠ Some (error_reply "Cannot encode payload into base64").
Proof.
  repeat (split; [reflexivity|]).
  vm_compute. intros [=].
Qed.

(** C1: the code at a handler that raises outside [Exception].  The
    handler registered under ["interrupt"] raises [KeyboardInterrupt]; no
    [except] clause of [generate_reply] catches it, [finally: return reply]
    finds [reply] unbound, and [generate_reply] raises [UnboundLocalError]
    to its caller instead of returning a reply. *)
Theorem interrupted_dispatch_raises :
  interrupting (handler_kwargs 1%positive (typed_hi_heap (VStr "interrupt"))
                  (bytes_of_string "hi")) 0%nat
    = (Raise (BaseException_ EmptyString), 1%nat) /\
  fst (generate_reply interruptible_dispatcher 1%positive
         (typed_hi_heap (VStr "interrupt"), 0%nat))
    = Raise (UnboundLocalError
        "cannot access local variable 'reply' where it is not associated with a value") /\
  reply_of (generate_reply interruptible_dispatcher 1%positive
              (typed_hi_heap (VStr "interrupt"), 0%nat)) = None.
Proof. repeat split. Qed.

(** ** A whole dispatch: the objects and the world *)

Lemma lookup_total_Some_dom (h : heap) (message : loc) (k : string) (v : value) :
  (h !!! message) !! k = Some v -> message ∈ dom h.
Proof.
  intros H. apply elem_of_dom. rewrite lookup_total_alt in H.
  destruct (h !! message) as [d|]; [eauto|].
  cbn in H. rewrite lookup_empty in H. discriminate H.
Qed.

Lemma fresh_not_in_dom (h : heap) : fresh (dom h) ∉ dom h.
Proof. apply is_fresh. Qed.

Section WholeDispatch.

Context {World : Type}.
Implicit Types (self : MessageHandler World) (f : handler World).
Implicit Types (message : loc) (h : heap) (w : World) (s : heap * World).
Implicit Types (e : exn) (v : value) (t : string).

(** The [try] suite either stops before the handler, raising an exception
    below [Exception] with nothing changed, or reaches the handler. *)
Lemma invoke_cases self message h w :
  (exists e, invoke self message (h, w) = (Raise e, (h, w)) /\
             is_Exception e = true /\
             forall t f decoded, ~ reaches_handler self message h t f decoded) \/
  (exists t f decoded, reaches_handler self message h t f decoded).
Proof.
  destruct ((h !!! message) !! "type") as [v|] eqn:Ht.
  - destruct (dict_contains (function_dictionary self) v) as [[|]|e0] eqn:Hc.
    + destruct (dict_contains_true _ _ Hc) as (t & f & -> & Hf).
      destruct ((h !!! message) !! "payload") as [payload|] eqn:Hp.
      * destruct (b64decode payload) as [decoded|e0] eqn:Hd.
        -- right. exists t, f, decoded. repeat split; eauto.
        -- left. eexists. split; [|split].
           ++ rewrite (invoke_registered _ _ _ _ _ _ Ht Hf), decode_payload_eq, Hp, Hd.
              reflexivity.
           ++ destruct (b64decode_raise _ _ Hd) as (He & _).
              now destruct (is_binascii_Error e0).
           ++ intros t' f' decoded (_ & _ & payload' & Hp' & Hd').
              rewrite Hp in Hp'. injection Hp' as <-. rewrite Hd in Hd'. discriminate.
      * left. eexists. split; [|split].
        -- rewrite (invoke_registered _ _ _ _ _ _ Ht Hf), decode_payload_eq, Hp.
           reflexivity.
        -- reflexivity.
        -- intros t' f' decoded (_ & _ & payload' & Hp' & _).
           rewrite Hp in Hp'. discriminate.
    + left. eexists. split; [|split].
      * exact (invoke_unrecognized _ _ _ _ _ Ht Hc).
      * reflexivity.
      * intros t' f' decoded (Ht' & Hf' & _).
        rewrite Ht in Ht'. injection Ht' as ->.
        cbn in Hc. rewrite bool_decide_eq_true_2 in Hc by eauto. discriminate.
    + left. eexists. split; [|split].
      * exact (invoke_contains_raise _ _ _ _ _ _ Ht Hc).
      * now destruct (dict_contains_raise _ _ _ Hc).
      * intros t' f' decoded (Ht' & _).
        rewrite Ht in Ht'. injection Ht' as ->. cbn in Hc. discriminate.
  - left. eexists. split; [|split].
    + exact (invoke_no_type _ _ _ _ Ht).
    + reflexivity.
    + intros t' f' decoded (Ht' & _). rewrite Ht in Ht'. discriminate.
Qed.

(** When the handler is reached, the [try] suite is the call of the handler
    on the decoded message. *)
Lemma invoke_reached self message h w t f decoded :
  reaches_handler self message h t f decoded ->
  invoke self message (h, w) =
  match f (handler_kwargs message h decoded) w with
  | (o, w') => (o, (<[message := handler_kwargs message h decoded]> h, w'))
  end.
Proof.
  intros (Ht & Hf & payload & Hp & Hd).
  exact (invoke_handler _ _ _ _ _ _ _ _ Ht Hf Hp Hd).
Qed.

(** After the [try] suite, [generate_reply] only adds objects: the world and
    the objects of the suite's final heap are kept, and a returned reply is
    not one of them. *)
Lemma generate_reply_extends self message s :
  world_of (generate_reply self message s) = snd (snd (invoke self message s)) /\
  (forall l, l ∈ dom (fst (snd (invoke self message s))) ->
             fst (snd (generate_reply self message s)) !! l
             = fst (snd (invoke self message s)) !! l) /\
  (forall r, fst (generate_reply self message s) = Return r ->
             r ∉ dom (fst (snd (invoke self message s)))).
Proof.
  unfold generate_reply, world_of.
  destruct (invoke self message s) as [[v|e] [h1 w1]]; cbn [fst snd].
  - unfold on_heap, new_dict. cbn [fst snd].
    rewrite encode_payload_eq, lookup_total_insert_eq.
    replace (ok_reply v !! "payload") with (Some v) by reflexivity.
    pose proof (fresh_not_in_dom h1) as Hfresh.
    destruct (b64encode v) as [encoded|e] eqn:Henc.
    + cbn. split; [reflexivity|]. split.
      * intros l Hl. rewrite !lookup_insert_ne; [reflexivity| |]; intros <-; contradiction.
      * intros r [= <-]. exact Hfresh.
    + destruct (b64encode_raise _ _ Henc) as (Hb & He & _).
      rewrite Hb, except_clauses_Exception by assumption. cbn [fst snd].
      pose proof (fresh_not_in_dom (<[fresh (dom h1) := ok_reply v]> h1)) as Hfresh2.
      split; [reflexivity|]. split.
      * intros l Hl. rewrite !lookup_insert_ne; [reflexivity| |].
        -- intros <-. contradiction.
        -- intros <-. apply Hfresh2.
           eapply elem_of_weaken; [exact Hl | apply dom_insert_subseteq].
      * intros r [= <-] Hr. apply Hfresh2.
        eapply elem_of_weaken; [exact Hr | apply dom_insert_subseteq].
  - destruct (is_Exception e) eqn:He.
    + rewrite except_clauses_Exception by assumption. cbn [fst snd].
      pose proof (fresh_not_in_dom h1) as Hfresh.
      split; [reflexivity|]. split.
      * intros l Hl. rewrite lookup_insert_ne; [reflexivity|]. intros <-. contradiction.
      * intros r [= <-]. exact Hfresh.
    + rewrite except_clauses_other by assumption. cbn.
      split; [reflexivity|]. split; [reflexivity|]. intros r [=].
Qed.

End WholeDispatch.

(** ** The effects of a whole dispatch *)

Section DispatchEffects.

Context {World : Type}.
Implicit Types (self : MessageHandler World) (f : handler World).
Implicit Types (message : loc) (h : heap) (w : World) (s : heap * World).
Implicit Types (e : exn) (v : value) (t : string).

(** The handler that is reached and what it is given are determined by the
    message. *)
Lemma reaches_handler_inj self message h t f decoded t' f' decoded' :
  reaches_handler self message h t f decoded ->
  reaches_handler self message h t' f' decoded' ->
  t' = t /\ f' = f /\ decoded' = decoded.
Proof.
  intros (Ht & Hf & p & Hp & Hd) (Ht' & Hf' & p' & Hp' & Hd').
  rewrite Ht in Ht'. injection Ht' as <-.
  rewrite Hf in Hf'. injection Hf' as <-.
  rewrite Hp in Hp'. injection Hp' as <-.
  rewrite Hd in Hd'. injection Hd' as <-. auto.
Qed.

(** A dispatch that stops before the handler: one new object, the error
    reply, and nothing else changed. *)
Lemma generate_reply_not_reached self message h w :
  (forall t f decoded, ~ reaches_handler self message h t f decoded) ->
  exists e,
    invoke self message (h, w) = (Raise e, (h, w)) /\
    is_Exception e = true /\
    generate_reply self message (h, w) =
    (Return (fresh (dom h)), (<[fresh (dom h) := error_reply (error_text e)]> h, w)).
Proof.
  intros Hno.
  destruct (invoke_cases self message h w) as [(e & Hinv & He & _)|(t & f & d & Hr)].
  - exists e. split; [exact Hinv|]. split; [exact He|].
    rewrite (generate_reply_raised _ _ _ _ _ Hinv).
    now rewrite except_clauses_Exception by assumption.
  - now destruct (Hno t f d).
Qed.

(** A dispatch that reaches the handler, by cases on what the handler does
    and on whether its result can be encoded. *)
Lemma generate_reply_reached self message h w t f decoded :
  reaches_handler self message h t f decoded ->
  generate_reply self message (h, w) =
  let h1 := <[message := handler_kwargs message h decoded]> h in
  match f (handler_kwargs message h decoded) w with
  | (Return v, w') =>
      match b64encode v with
      | Return encoded =>
          (Return (fresh (dom h1)),
           (<[fresh (dom h1) := ok_reply (VStr (decode_utf8 encoded))]> h1, w'))
      | Raise e =>
          let h2 := <[fresh (dom h1) := ok_reply v]> h1 in
          (Return (fresh (dom h2)),
           (<[fresh (dom h2) := error_reply (error_text e)]> h2, w'))
      end
  | (Raise e, w') =>
      if is_Exception e then
        (Return (fresh (dom h1)),
         (<[fresh (dom h1) := error_reply (error_text e)]> h1, w'))
      else
        (Raise (UnboundLocalError
           "cannot access local variable 'reply' where it is not associated with a value"),
         (h1, w'))
  end.
Proof.
  intros Hr. pose proof (invoke_reached _ _ _ w _ _ _ Hr) as Hinv.
  cbv zeta.
  destruct (f (handler_kwargs message h decoded) w) as [[v|e] w'].
  - unfold generate_reply. rewrite Hinv.
    unfold on_heap, new_dict. cbn [fst snd].
    rewrite encode_payload_eq, lookup_total_insert_eq.
    replace (ok_reply v !! "payload") with (Some v) by reflexivity.
    destruct (b64encode v) as [encoded|e] eqn:Henc.
    + cbn. rewrite insert_insert_eq. reflexivity.
    + destruct (b64encode_raise _ _ Henc) as (Hb & He & _).
      rewrite Hb, except_clauses_Exception by assumption. reflexivity.
  - rewrite (generate_reply_raised _ _ _ _ _ Hinv).
    destruct (is_Exception e) eqn:He.
    + now rewrite except_clauses_Exception by assumption.
    + now rewrite except_clauses_other by assumption.
Qed.

(** The reply of a dispatch, by the outcome of the [try] suite up to the
    handler's return. *)
Lemma reply_of_by_outcome self message s :
  reply_of (generate_reply self message s) =
  match fst (invoke self message s) with
  | Return v =>
      Some (match b64encode v with
            | Return encoded => ok_reply (VStr (decode_utf8 encoded))
            | Raise e => error_reply (error_text e)
            end)
  | Raise e => if is_Exception e then Some (error_reply (error_text e)) else None
  end.
Proof.
  destruct (invoke self message s) as [[v|e] s1] eqn:Hinv; cbn [fst].
  - now destruct (reply_of_returned _ _ _ _ _ Hinv).
  - destruct (is_Exception e) eqn:He.
    + now destruct (reply_of_raised _ _ _ _ _ Hinv He).
    + rewrite (generate_reply_raised _ _ _ _ _ Hinv).
      now rewrite except_clauses_other by assumption.
Qed.

(** The outcome of the [try] suite up to the handler's return, when the
    handler is reached. *)
Lemma invoke_reached_fst self message h w t f decoded :
  reaches_handler self message h t f decoded ->
  fst (invoke self message (h, w)) = fst (f (handler_kwargs message h decoded) w) /\
  fst (snd (invoke self message (h, w)))
    = <[message := handler_kwargs message h decoded]> h /\
  snd (snd (invoke self message (h, w))) = snd (f (handler_kwargs message h decoded) w).
Proof.
  intros Hr. rewrite (invoke_reached _ _ _ w _ _ _ Hr).
  now destruct (f (handler_kwargs message h decoded) w).
Qed.

(** The heap the [try] suite leaves: the one it was given, or that heap
    with the message decoded. *)
Lemma invoke_heap self message h w :
  fst (snd (invoke self message (h, w))) = h \/
  exists d, fst (snd (invoke self message (h, w))) = <[message := d]> h.
Proof.
  destruct (invoke_cases self message h w) as [(e & Hinv & _)|(t & f & d & Hr)].
  - left. now rewrite Hinv.
  - right. eexists. exact (proj1 (proj2 (invoke_reached_fst _ _ _ w _ _ _ Hr))).
Qed.


(** X2 (a rejected message).
    A dispatch that does not reach a handler (no type, a type that is
    not a registered key, no payload, a payload that does not decode)
    returns a new object holding an error reply and changes nothing else:
    the message and every other object are as they were and the handlers'
    world is untouched. *)
Theorem rejected_dispatch_effects self message h w :
  (forall t f decoded, ~ reaches_handler self message h t f decoded) ->
  exists (r : loc) (text : string),
    (r ∉ dom h) /\
    generate_reply self message (h, w) = (Return r, (<[r := error_reply text]> h, w)).
Proof.
  intros Hno.
  destruct (generate_reply_not_reached _ _ _ w Hno) as (e & _ & _ & Hg).
  exists (fresh (dom h)), (error_text e). split; [apply fresh_not_in_dom | exact Hg].
Qed.

(** X3 (frame of a dispatch).
    The statements of [generate_reply] change no dict object other than
    the message (the handlers act on their own world), and a reply it
    returns is an object that did not exist before, so it is neither the
    message nor any other object the caller holds. *)
Theorem dispatch_frame self message h w :
  (forall l, l ∈ dom h -> l ≠ message ->
     fst (snd (generate_reply self message (h, w))) !! l = h !! l) /\
  (forall r, fst (generate_reply self message (h, w)) = Return r ->
     (r ∉ dom h) /\ (message ∈ dom h -> r ≠ message)).
Proof.
  destruct (generate_reply_extends self message (h, w)) as (_ & Hkeep & Hnew).
  assert (Hsub : forall l, l ∈ dom h -> l ∈ dom (fst (snd (invoke self message (h, w))))).
  { intros l Hl. destruct (invoke_heap self message h w) as [->|[d ->]]; [exact Hl|].
    eapply elem_of_weaken; [exact Hl | apply dom_insert_subseteq]. }
  split.
  - intros l Hl Hne. rewrite (Hkeep l (Hsub l Hl)).
    destruct (invoke_heap self message h w) as [->|[d ->]]; [reflexivity|].
    now rewrite lookup_insert_ne.
  - intros r Hr. specialize (Hnew r Hr).
    assert (Hr' : r ∉ dom h) by (intros Hin; exact (Hnew (Hsub r Hin))).
    split; [exact Hr'|]. intros Hm ->. exact (Hr' Hm).
Qed.

(** X4 (faults that escape).
    A fault that escapes [generate_reply] is always the [UnboundLocalError]
    of [finally: return reply], and it escapes only when the handler was
    reached and raised: nothing the pipeline itself raises escapes.  When
    the handler raises an exception outside [Exception], no [except]
    clause binds [reply] and that fault does escape, the handler's own
    exception being dropped. *)
Theorem fault_escapes_from_handler self message h w :
  (forall e, fst (generate_reply self message (h, w)) = Raise e ->
     (exists msg, e = UnboundLocalError msg) /\
     (exists t f decoded e0 w',
        reaches_handler self message h t f decoded /\
        f (handler_kwargs message h decoded) w = (Raise e0, w'))) /\
  (forall t f decoded e0 w',
     reaches_handler self message h t f decoded ->
     f (handler_kwargs message h decoded) w = (Raise e0, w') ->
     is_Exception e0 = false ->
     exists msg,
       fst (generate_reply self message (h, w)) = Raise (UnboundLocalError msg)).
Proof.
  split.
  - intros e He. split.
    + destruct (generate_reply_outcome self message (h, w)) as [[r Hr]|[msg Hr]];
        rewrite Hr in He; [discriminate He|]. injection He as <-. eauto.
    + destruct (invoke_cases self message h w) as [Hno|(t & f & d & Hr)].
      * destruct Hno as (e1 & Hinv & He1 & _).
        rewrite (generate_reply_raised _ _ _ _ _ Hinv) in He.
        rewrite except_clauses_Exception in He by assumption. discriminate He.
      * exists t, f, d. rewrite (generate_reply_reached _ _ _ w _ _ _ Hr) in He.
        cbv zeta in He.
        destruct (f (handler_kwargs message h d) w) as [[v|e0] w'].
        -- destruct (b64encode v); discriminate He.
        -- exists e0, w'. split; [exact Hr | reflexivity].
  - intros t f d e0 w' Hr Hcall He0.
    rewrite (generate_reply_reached _ _ _ w _ _ _ Hr). cbv zeta.
    rewrite Hcall, He0. eexists. reflexivity.
Qed.


(** X6 (status ok).
    The status of the reply is ["ok"] exactly when the handler was reached
    and returned a value that [b64encode] accepts. *)
Theorem status_ok_iff_result_encoded self message h w :
  (exists reply : dict,
     reply_of (generate_reply self message (h, w)) = Some reply /\
     reply !! "status" = Some (VStr "ok")) <->
  (exists t f decoded v (encoded : bytes),
     reaches_handler self message h t f decoded /\
     fst (f (handler_kwargs message h decoded) w) = Return v /\
     b64encode v = Return encoded).
Proof.
  rewrite reply_of_by_outcome. split.
  - intros (reply & Hreply & Hst).
    destruct (invoke_cases self message h w) as [Hno|(t & f & d & Hr)].
    + destruct Hno as (e & Hinv & He & _). rewrite Hinv in Hreply. cbn in Hreply.
      rewrite He in Hreply. injection Hreply as <-. discriminate Hst.
    + exists t, f, d.
      destruct (invoke_reached_fst _ _ _ w _ _ _ Hr) as (Ho & _).
      rewrite Ho in Hreply.
      destruct (fst (f (handler_kwargs message h d) w)) as [v|e].
      * exists v. destruct (b64encode v) as [encoded|e] eqn:Henc; [eauto|].
        injection Hreply as <-. discriminate Hst.
      * destruct (is_Exception e); [|discriminate Hreply].
        injection Hreply as <-. discriminate Hst.
  - intros (t & f & d & v & encoded & Hr & Hcall & Henc).
    destruct (invoke_reached_fst _ _ _ w _ _ _ Hr) as (Ho & _).
    rewrite Ho, Hcall, Henc. eexists. split; reflexivity.
Qed.

(** X7 (the success payload).
    When the handler returns [bytes], the payload of the success
    reply is an ASCII text that [b64decode] turns back into exactly those
    bytes. *)
Theorem ok_reply_decodes_to_result self message h w t f decoded (b : bytes) :
  reaches_handler self message h t f decoded ->
  fst (f (handler_kwargs message h decoded) w) = Return (VBytes b) ->
  exists text,
    reply_of (generate_reply self message (h, w)) = Some (ok_reply (VStr text)) /\
    is_ascii text = true /\
    b64decode (VStr text) = Return b.
Proof.
  intros Hr Hcall.
  destruct (invoke_reached_fst _ _ _ w _ _ _ Hr) as (Ho & _).
  exists (decode_utf8 (Base64.b2a_base64 b)). split; [|split].
  - rewrite reply_of_by_outcome, Ho, Hcall. reflexivity.
  - apply is_ascii_decode_utf8, Base64Roundtrip.b2a_base64_ascii.
  - apply b64decode_b64encode.
Qed.

(** X8 (the handler's call).
    When the handler is reached it is called once, on every item of
    the message with the payload decoded: the world after the dispatch is
    the world that one call leaves, whether the handler returned or raised
    and whether or not its result could be encoded. *)
Theorem handler_called_once self message h w t f decoded :
  reaches_handler self message h t f decoded ->
  world_of (generate_reply self message (h, w))
    = snd (f (handler_kwargs message h decoded) w).
Proof.
  intros Hr.
  destruct (generate_reply_extends self message (h, w)) as (Hw & _).
  rewrite Hw. exact (proj2 (proj2 (invoke_reached_fst _ _ _ w _ _ _ Hr))).
Qed.

(** X23 (replies when no handler raises).
    Whenever the handler is not reached, or is reached and returns,
    whatever it returns, [generate_reply] returns a dict with ['status']
    and ['payload'] set, the status being ["ok"] or ["error"]. *)
Theorem reply_unless_handler_raises self message h w :
  (forall t f decoded,
     reaches_handler self message h t f decoded ->
     exists v, fst (f (handler_kwargs message h decoded) w) = Return v) ->
  exists reply : dict,
    reply_of (generate_reply self message (h, w)) = Some reply /\
    well_formed_reply reply.
Proof.
  intros Hret. rewrite reply_of_by_outcome.
  destruct (invoke_cases self message h w) as [Hno|(t & f & d & Hr)].
  - destruct Hno as (e & Hinv & He & _). rewrite Hinv. cbn [fst]. rewrite He.
    eexists. split; [reflexivity | apply error_reply_well_formed].
  - destruct (invoke_reached_fst _ _ _ w _ _ _ Hr) as (Ho & _).
    destruct (Hret _ _ _ Hr) as [v Hv]. rewrite Ho, Hv.
    eexists. split; [reflexivity|].
    destruct (b64encode v);
      [apply ok_reply_well_formed | apply error_reply_well_formed].
Qed.

End DispatchEffects.

(** ** The steps of the pipeline, one by one *)

Section Steps.

Context {World : Type}.
Implicit Types (self : MessageHandler World) (f : handler World).
Implicit Types (message : loc) (h : heap) (w : World) (s : heap * World).
Implicit Types (e : exn) (v : value) (t : string).

(** X9 (validation).
    [validate_json] changes nothing and looks at the ['type'] item
    only: it passes exactly when the type is a string that is a key of the
    registry, raises [KeyError] exactly when there is no ['type'] item, and
    raises [UnrecognizedFileTypeError] exactly when the type is hashable
    and not a key; the payload, present or not, plays no part. *)
Theorem validate_json_outcome self message h :
  snd (validate_json self message h) = h /\
  (fst (validate_json self message h) = Return tt <->
   exists t f, (h !!! message) !! "type" = Some (VStr t) /\
               function_dictionary self !! t = Some f) /\
  (fst (validate_json self message h) = Raise (KeyError "'type'") <->
   (h !!! message) !! "type" = None) /\
  (fst (validate_json self message h) = Raise UnrecognizedFileTypeError <->
   exists v, (h !!! message) !! "type" = Some v /\ hashable v = true /\
             forall t, v = VStr t -> function_dictionary self !! t = None) /\
  (forall payload : option value,
     fst (validate_json self message
            (<[message := alter_payload payload (h !!! message)]> h))
     = fst (validate_json self message h)).
Proof.
  unfold validate_json, bind, getitem, lift, raise, ret.
  split; [|split; [|split; [|split]]].
  - destruct ((h !!! message) !! "type") as [v|]; [|reflexivity].
    destruct (dict_contains _ v) as [[|]|]; reflexivity.
  - destruct ((h !!! message) !! "type") as [v|]; cbn.
    + destruct (dict_contains _ v) as [[|]|e] eqn:Hc; cbn.
      * split; [|reflexivity]. intros _.
        destruct (dict_contains_true _ _ Hc) as (t & f & -> & Hf). eauto.
      * split; [discriminate|]. intros (t & f & [= ->] & Hf).
        cbn in Hc. rewrite bool_decide_eq_true_2 in Hc by eauto. discriminate Hc.
      * split; [discriminate|]. intros (t & f & [= ->] & Hf). discriminate Hc.
    + split; [discriminate|]. intros (t & f & [=] & _).
  - destruct ((h !!! message) !! "type") as [v|]; cbn.
    + split; [|discriminate].
      destruct (dict_contains _ v) as [[|]|e] eqn:Hc; cbn; try discriminate.
      intros [= ->]. destruct (dict_contains_raise _ _ _ Hc) as (_ & _ & Hk & _).
      discriminate Hk.
    + split; reflexivity.
  - destruct ((h !!! message) !! "type") as [v|]; cbn.
    + destruct (dict_contains _ v) as [[|]|e] eqn:Hc; cbn.
      * split; [discriminate|]. intros (v' & [= <-] & Hh & Hkey).
        destruct (dict_contains_true _ _ Hc) as (t & f & -> & Hf).
        rewrite (Hkey t eq_refl) in Hf. discriminate Hf.
      * split; [|reflexivity]. intros _. exists v. split; [reflexivity|].
        destruct v; cbn in Hc; try discriminate Hc; cbn;
          (split; [reflexivity|]); intros t Hv; try discriminate Hv.
        injection Hv as <-.
        injection Hc as Hc. apply bool_decide_eq_false in Hc.
        destruct (function_dictionary self !! s) eqn:Hs; [|reflexivity].
        destruct Hc. eauto.
      * split.
        -- intros [= ->]. destruct (dict_contains_raise _ _ _ Hc) as (_ & Hm & _).
           discriminate Hm.
        -- intros (v' & [= <-] & Hh & _).
           destruct (dict_contains_raise _ _ _ Hc) as (_ & _ & _ & Hu).
           rewrite Hh in Hu. discriminate Hu.
    + split; [discriminate|]. intros (v & [=] & _).
  - intros payload. rewrite lookup_total_insert_eq.
    replace (alter_payload payload (h !!! message) !! "type")
      with ((h !!! message) !! "type").
    { destruct ((h !!! message) !! "type") as [v|]; [|reflexivity].
      destruct (dict_contains _ v) as [[|]|]; reflexivity. }
    destruct payload as [p|]; cbn.
    + now rewrite lookup_insert_ne.
    + now rewrite lookup_delete_ne.
Qed.

(** X10 (decoding failures).
    When [decode_payload] raises, the message is unchanged, and the
    exception tells why: [KeyError] for a message without payload,
    [PayloadNotBase64Error] for a [binascii.Error] of [b64decode], and,
    not caught by its [except] clause, the [ValueError] of a [str] that is
    not ASCII and the [TypeError] of a payload that is neither [str] nor
    [bytes]. *)
Theorem decode_payload_failure message h e (h1 : heap) :
  decode_payload message h = (Raise e, h1) ->
  h1 = h /\
  (((h !!! message) !! "payload" = None /\ e = KeyError "'payload'") \/
   (exists p msg,
      (h !!! message) !! "payload" = Some p /\
      b64decode p = Raise (binascii_Error msg) /\
      e = PayloadNotBase64Error) \/
   (exists text,
      (h !!! message) !! "payload" = Some (VStr text) /\
      is_ascii text = false /\
      e = ValueError "string argument should contain only ASCII characters") \/
   (exists p,
      (h !!! message) !! "payload" = Some p /\
      (forall text, p ≠ VStr text) /\ (forall b, p ≠ VBytes b) /\
      e = TypeError ("argument should be a bytes-like object or ASCII string, not "
                     +:+ py_repr (VStr (type_name p))))).
Proof.
  rewrite decode_payload_eq.
  destruct ((h !!! message) !! "payload") as [p|] eqn:Hp.
  - destruct (b64decode p) as [decoded|e0] eqn:Hd; [discriminate|].
    intros [= <- <-]. split; [reflexivity|]. right.
    unfold b64decode in Hd.
    destruct p as [| | |text|b|];
      try (injection Hd as <-; right; right; eexists;
           repeat split; try reflexivity; intros ? [=]).
    + destruct (is_ascii text) eqn:Ha.
      * destruct (Base64.a2b_base64 _) as [|msg] eqn:Hb; [discriminate Hd|].
        injection Hd as <-. left. exists (VStr text), msg.
        split; [reflexivity|]. split; [|reflexivity].
        unfold b64decode. now rewrite Ha, Hb.
      * injection Hd as <-. right. left. exists text. auto.
    + destruct (Base64.a2b_base64 _) as [|msg] eqn:Hb; [discriminate Hd|].
      injection Hd as <-. left. exists (VBytes b), msg.
      split; [reflexivity|]. split; [|reflexivity].
      unfold b64decode. now rewrite Hb.
  - intros [= <- <-]. split; [reflexivity|]. left. auto.
Qed.

(** X11 (encoding failures).
    On a message without payload [encode_payload] raises the [KeyError] of
    the lookup, and on a payload that is not [bytes] ([None], a bool, a
    number, a [str], a list) it raises the [TypeError] of [b64encode],
    which its [except binascii.Error] clause does not catch; either way
    the object is unchanged. *)
Theorem encode_payload_failure message h :
  ((h !!! message) !! "payload" = None ->
   encode_payload message h = (Raise (KeyError "'payload'"), h)) /\
  (forall p,
     (h !!! message) !! "payload" = Some p ->
     (forall b, p ≠ VBytes b) ->
     encode_payload message h
     = (Raise (TypeError ("a bytes-like object is required, not "
                          +:+ py_repr (VStr (type_name p)))), h)).
Proof.
  rewrite encode_payload_eq. split.
  - intros ->. reflexivity.
  - intros p -> Hp. destruct p as [| | | |b|]; try reflexivity.
    now destruct (Hp b).
Qed.

(** A registered type and a payload that [b64decode] rejects: the reply
    carries the text of the clause that catches the exception, and the
    handler is not called. *)
Lemma rejected_payload_reply self message h w t f (payload : value) e :
  (h !!! message) !! "type" = Some (VStr t) ->
  function_dictionary self !! t = Some f ->
  (h !!! message) !! "payload" = Some payload ->
  b64decode payload = Raise e ->
  reply_of (generate_reply self message (h, w))
    = Some (error_reply (if is_binascii_Error e
                         then "Message payload cannot be decoded from base64"
                         else "Server error: " +:+ str_exn e)) /\
  world_of (generate_reply self message (h, w)) = w.
Proof.
  intros Ht Hf Hp Hd.
  pose proof (invoke_registered _ _ _ w _ _ Ht Hf) as Hinv.
  rewrite decode_payload_eq, Hp, Hd in Hinv.
  destruct (b64decode_raise _ _ Hd) as (He & Hm & Hk).
  assert (He' : is_Exception (if is_binascii_Error e then PayloadNotBase64Error else e)
                = true) by now destruct (is_binascii_Error e).
  destruct (reply_of_raised _ _ _ _ _ Hinv He') as [Hr Hw].
  split; [|exact Hw]. rewrite Hr.
  destruct (is_binascii_Error e); [reflexivity|].
  unfold error_text. now rewrite Hm, Hk.
Qed.

(** X12 (payload of a wrong type).
    A payload that is neither [str] nor [bytes] (a number, [None],
    a list), under a registered type, is answered with the
    ["Server error: "] reply carrying the [TypeError] of [b64decode], not
    with the reply for payloads that are not base64; the handler is not
    called. *)
Theorem wrong_type_payload_reply self message h w t f (payload : value) :
  (h !!! message) !! "type" = Some (VStr t) ->
  function_dictionary self !! t = Some f ->
  (h !!! message) !! "payload" = Some payload ->
  (forall text, payload ≠ VStr text) ->
  (forall b, payload ≠ VBytes b) ->
  reply_of (generate_reply self message (h, w))
    = Some (error_reply
              ("Server error: argument should be a bytes-like object or ASCII string, not "
               +:+ py_repr (VStr (type_name payload)))) /\
  world_of (generate_reply self message (h, w)) = w.
Proof.
  intros Ht Hf Hp Hs Hb.
  destruct payload as [| | |text|b|];
    try exact (rejected_payload_reply _ _ _ _ _ _ _ _ Ht Hf Hp eq_refl).
  - now destruct (Hs text).
  - now destruct (Hb b).
Qed.

(** X13 (payload outside ASCII).
    A [str] payload with a character outside ASCII, under a
    registered type, is answered with the ["Server error: "] reply
    carrying the [ValueError] of [b64decode]; the handler is not called. *)
Theorem non_ascii_payload_reply self message h w t f (payload : string) :
  (h !!! message) !! "type" = Some (VStr t) ->
  function_dictionary self !! t = Some f ->
  (h !!! message) !! "payload" = Some (VStr payload) ->
  is_ascii payload = false ->
  reply_of (generate_reply self message (h, w))
    = Some (error_reply
              "Server error: string argument should contain only ASCII characters") /\
  world_of (generate_reply self message (h, w)) = w.
Proof.
  intros Ht Hf Hp Ha.
  assert (Hd : b64decode (VStr payload)
               = Raise (ValueError "string argument should contain only ASCII characters")).
  { unfold b64decode. now rewrite Ha. }
  exact (rejected_payload_reply _ _ _ _ _ _ _ _ Ht Hf Hp Hd).
Qed.

End Steps.

(** ** The registry *)

Section Registry.

Context {World : Type}.
Implicit Types (self : MessageHandler World) (f g : handler World).
Implicit Types (message : loc) (h : heap) (w : World) (s : heap * World).
Implicit Types (e : exn) (v : value) (t : string).

Lemma dict_contains_add_function_ne self t f v :
  v ≠ VStr t ->
  dict_contains (function_dictionary (add_function self t f)) v
  = dict_contains (function_dictionary self) v.
Proof.
  intros Hv. destruct v as [| | |t'| |]; try reflexivity.
  cbn. rewrite lookup_insert_ne; [reflexivity|]. intros ->. now destruct Hv.
Qed.

Lemma invoke_add_function_ne self t f message h w :
  (h !!! message) !! "type" ≠ Some (VStr t) ->
  invoke (add_function self t f) message (h, w) = invoke self message (h, w).
Proof.
  intros Hne.
  destruct ((h !!! message) !! "type") as [v|] eqn:Ht.
  - assert (Hv : v ≠ VStr t) by (intros ->; now destruct Hne).
    pose proof (dict_contains_add_function_ne self t f v Hv) as Hc'.
    destruct (dict_contains (function_dictionary self) v) as [[|]|e0] eqn:Hc.
    + destruct (dict_contains_true _ _ Hc) as (t' & f' & -> & Hf).
      assert (Hf' : function_dictionary (add_function self t f) !! t' = Some f').
      { cbn. rewrite lookup_insert_ne; [exact Hf|]. intros ->. now destruct Hv. }
      now rewrite (invoke_registered _ _ _ _ _ _ Ht Hf),
                  (invoke_registered _ _ _ _ _ _ Ht Hf').
    + now rewrite (invoke_unrecognized _ _ _ _ _ Ht Hc),
                  (invoke_unrecognized _ _ _ _ _ Ht Hc').
    + now rewrite (invoke_contains_raise _ _ _ _ _ _ Ht Hc),
                  (invoke_contains_raise _ _ _ _ _ _ Ht Hc').
  - now rewrite !(invoke_no_type _ _ _ _ Ht).
Qed.

(** The dispatch is a function of the [try] suite up to the handler's
    return. *)
Lemma generate_reply_by_invoke self self' message s :
  invoke self message s = invoke self' message s ->
  generate_reply self message s = generate_reply self' message s.
Proof. intros H. unfold generate_reply. now rewrite H. Qed.

(** X14 (registration and other types).
    Registering a handler under a type changes nothing for the
    messages of every other type, and for those without a type: the
    dispatch gives the same reply, the same objects and the same world. *)
Theorem add_function_other_types self t f message h w :
  (h !!! message) !! "type" ≠ Some (VStr t) ->
  generate_reply (add_function self t f) message (h, w)
  = generate_reply self message (h, w).
Proof.
  intros Hne. apply generate_reply_by_invoke, invoke_add_function_ne, Hne.
Qed.

(** X15 (last registration wins).
    The last registration for a type wins: after [f] and then [g]
    are registered under [t], a message of type [t] whose payload decodes
    reaches [g], the dispatch is the one of a registry where only [g] was
    registered, and the world is the one a call of [g] leaves. *)
Theorem add_function_last_wins self t f g message h w (payload : value) decoded :
  (h !!! message) !! "type" = Some (VStr t) ->
  (h !!! message) !! "payload" = Some payload ->
  b64decode payload = Return decoded ->
  reaches_handler (add_function (add_function self t f) t g) message h t g decoded /\
  generate_reply (add_function (add_function self t f) t g) message (h, w)
  = generate_reply (add_function self t g) message (h, w) /\
  world_of (generate_reply (add_function (add_function self t f) t g) message (h, w))
  = snd (g (handler_kwargs message h decoded) w).
Proof.
  intros Ht Hp Hd.
  assert (Hr : reaches_handler (add_function (add_function self t f) t g)
                 message h t g decoded).
  { split; [exact Ht|]. split; [apply lookup_insert_eq|]. eauto. }
  split; [exact Hr|]. split.
  - unfold add_function. cbn [function_dictionary]. now rewrite insert_insert_eq.
  - destruct (generate_reply_extends (add_function (add_function self t f) t g)
                message (h, w)) as (Hw & _).
    rewrite Hw. exact (proj2 (proj2 (invoke_reached_fst _ _ _ w _ _ _ Hr))).
Qed.

(** X16 (order of registrations).
    Registrations under different types do not interfere: their
    order is irrelevant to every dispatch. *)
Theorem add_function_order_irrelevant self t1 f1 t2 f2 message s :
  t1 ≠ t2 ->
  generate_reply (add_function (add_function self t1 f1) t2 f2) message s
  = generate_reply (add_function (add_function self t2 f2) t1 f1) message s.
Proof.
  intros Hne. unfold add_function. cbn [function_dictionary].
  now rewrite insert_insert_ne by (intros ->; now destruct Hne).
Qed.

(** X17 (empty registry).
    A [MessageHandler] made without a dict recognises no type:
    every dispatch returns a new error reply, with one of three texts,
    and changes nothing else. *)
Theorem empty_registry_rejects message h w :
  exists (r : loc) (text : string),
    (r ∉ dom h) /\
    generate_reply (init (World := World) None) message (h, w)
    = (Return r, (<[r := error_reply text]> h, w)) /\
    (text = "JSON object missing required field'type'" \/
     text = "File type not recognized" \/
     exists v, (h !!! message) !! "type" = Some v /\ hashable v = false /\
               text = "Server error: unhashable type: "
                      +:+ py_repr (VStr (type_name v))).
Proof.
  exists (fresh (dom h)).
  destruct ((h !!! message) !! "type") as [v|] eqn:Ht.
  - destruct (hashable v) eqn:Hh.
    + exists "File type not recognized".
      split; [apply fresh_not_in_dom|]. split; [|auto].
      assert (Hc : dict_contains (function_dictionary (init (World := World) None)) v
                   = Return false).
      { apply dict_contains_false; [exact Hh|]. intros t _. apply lookup_empty. }
      rewrite (generate_reply_raised _ _ _ _ _ (invoke_unrecognized _ _ _ w _ Ht Hc)).
      now rewrite except_clauses_Exception.
    + exists ("Server error: unhashable type: " +:+ py_repr (VStr (type_name v))).
      split; [apply fresh_not_in_dom|]. split; [|eauto 6].
      assert (Hc : dict_contains (function_dictionary (init (World := World) None)) v
                   = Raise (TypeError ("unhashable type: "
                                       +:+ py_repr (VStr (type_name v))))).
      { destruct v; try discriminate Hh. reflexivity. }
      rewrite (generate_reply_raised _ _ _ _ _ (invoke_contains_raise _ _ _ w _ _ Ht Hc)).
      now rewrite except_clauses_Exception.
  - exists "JSON object missing required field'type'".
    split; [apply fresh_not_in_dom|]. split; [|auto].
    rewrite (generate_reply_raised _ _ _ _ _ (invoke_no_type _ _ _ w Ht)).
    now rewrite except_clauses_Exception.
Qed.

End Registry.

(** ** One dispatch after another *)

Section Independence.

Context {World : Type}.
Implicit Types (self : MessageHandler World) (f g : handler World).
Implicit Types (message : loc) (h : heap) (w : World) (s : heap * World).
Implicit Types (e : exn) (v : value) (t : string).

(** The outcome of the [try] suite and the world it leaves depend on the
    items of the message only. *)
Lemma invoke_depends_on_items self message message' h h' w :
  h !!! message = h' !!! message' ->
  fst (invoke self message (h, w)) = fst (invoke self message' (h', w)) /\
  snd (snd (invoke self message (h, w))) = snd (snd (invoke self message' (h', w))).
Proof.
  intros Heq.
  destruct ((h !!! message) !! "type") as [v|] eqn:Ht.
  - pose proof Ht as Ht'. rewrite Heq in Ht'.
    destruct (dict_contains (function_dictionary self) v) as [[|]|e0] eqn:Hc.
    + destruct (dict_contains_true _ _ Hc) as (t & f & -> & Hf).
      rewrite (invoke_registered _ _ _ _ _ _ Ht Hf),
              (invoke_registered _ _ _ _ _ _ Ht' Hf), !decode_payload_eq, Heq.
      destruct ((h' !!! message') !! "payload") as [p|]; [|split; reflexivity].
      destruct (b64decode p) as [decoded|e]; [|split; reflexivity].
      rewrite !lookup_total_insert_eq.
      destruct (f _ w) as [o w']. split; reflexivity.
    + rewrite (invoke_unrecognized _ _ _ _ _ Ht Hc),
              (invoke_unrecognized _ _ _ _ _ Ht' Hc). split; reflexivity.
    + rewrite (invoke_contains_raise _ _ _ _ _ _ Ht Hc),
              (invoke_contains_raise _ _ _ _ _ _ Ht' Hc). split; reflexivity.
  - pose proof Ht as Ht'. rewrite Heq in Ht'.
    rewrite (invoke_no_type _ _ _ _ Ht), (invoke_no_type _ _ _ _ Ht').
    split; reflexivity.
Qed.

(** X18 (independence of dispatches).
    A dispatch depends on the items of the message, the registry
    and the world only: two message objects with the same items, in
    whatever heaps, get the same reply and leave the same world. *)
Theorem dispatch_depends_on_items self message message' h h' w :
  h !!! message = h' !!! message' ->
  reply_of (generate_reply self message (h, w))
  = reply_of (generate_reply self message' (h', w)) /\
  world_of (generate_reply self message (h, w))
  = world_of (generate_reply self message' (h', w)).
Proof.
  intros Heq. destruct (invoke_depends_on_items self _ _ _ _ w Heq) as [Ho Hw].
  split.
  - now rewrite !reply_of_by_outcome, Ho.
  - destruct (generate_reply_extends self message (h, w)) as (-> & _).
    destruct (generate_reply_extends self message' (h', w)) as (-> & _).
    exact Hw.
Qed.

(** The message object after a dispatch that reached the handler. *)
Lemma reached_final_message self message h w t f decoded :
  reaches_handler self message h t f decoded ->
  fst (snd (generate_reply self message (h, w))) !!! message
  = handler_kwargs message h decoded.
Proof.
  intros Hr.
  destruct (invoke_reached_fst _ _ _ w _ _ _ Hr) as (_ & Hh & _).
  destruct (generate_reply_extends self message (h, w)) as (_ & Hkeep & _).
  rewrite lookup_total_alt, Hkeep; rewrite Hh.
  - now rewrite lookup_insert_eq.
  - apply elem_of_dom. rewrite lookup_insert_eq. eauto.
Qed.

(** X19 (dispatching a message twice).
    Dispatching the same message object again decodes what the
    first dispatch left in it: the second dispatch reaches the same
    handler exactly when the bytes decoded the first time are themselves
    base64, and the handler is then given those bytes decoded again. *)
Theorem redispatch_decodes_again self message h w t f decoded :
  reaches_handler self message h t f decoded ->
  forall t' f' decoded',
    reaches_handler self message
      (fst (snd (generate_reply self message (h, w)))) t' f' decoded' <->
    t' = t /\ f' = f /\ b64decode (VBytes decoded) = Return decoded'.
Proof.
  intros Hr t' f' decoded'.
  unfold reaches_handler at 1.
  rewrite (reached_final_message _ _ _ w _ _ _ Hr).
  destruct Hr as (Ht & Hf & _).
  unfold handler_kwargs. rewrite lookup_insert_ne by discriminate.
  rewrite lookup_insert_eq, Ht. split.
  - intros ([= <-] & Hf' & p & [= <-] & Hd).
    rewrite Hf in Hf'. injection Hf' as <-. auto.
  - intros (-> & -> & Hd). split; [reflexivity|]. split; [exact Hf|]. eauto.
Qed.

End Independence.

(** ** The texts of the error replies *)

Lemma error_reply_inj (text text' : string) :
  error_reply text = error_reply text' -> text = text'.
Proof.
  intros H. apply (f_equal (fun d : dict => d !! "payload")) in H.
  cbn in H. now injection H.
Qed.

(** The exception answered with the text of [MissingPayloadError]. *)
Lemma error_text_missing_payload (e : exn) :
  error_text e = "Message has no payload" ->
  message_attr e = Some "Message has no payload".
Proof. destruct e; cbn; intros H; try discriminate H; reflexivity. Qed.

Section ErrorTexts.

Context {World : Type}.
Implicit Types (self : MessageHandler World) (f g : handler World).
Implicit Types (message : loc) (h : heap) (w : World) (s : heap * World).
Implicit Types (e : exn) (v : value) (t : string).

(** What the [try] suite raises before the handler is called. *)
Lemma invoke_raise_before_handler self message h w e s1 :
  (forall t f decoded, ~ reaches_handler self message h t f decoded) ->
  invoke self message (h, w) = (Raise e, s1) ->
  e ≠ MissingPayloadError /\ e ≠ CantEncodePayloadError.
Proof.
  intros Hno H.
  destruct ((h !!! message) !! "type") as [v|] eqn:Ht.
  - destruct (dict_contains (function_dictionary self) v) as [[|]|e0] eqn:Hc.
    + destruct (dict_contains_true _ _ Hc) as (t & f & -> & Hf).
      rewrite (invoke_registered _ _ _ _ _ _ Ht Hf), decode_payload_eq in H.
      destruct ((h !!! message) !! "payload") as [p|] eqn:Hp.
      * destruct (b64decode p) as [decoded|e0] eqn:Hd.
        -- destruct (Hno t f decoded). split; [exact Ht|]. split; [exact Hf|]. eauto.
        -- injection H as <- _. destruct (b64decode_raise _ _ Hd) as (_ & Hm & _).
           destruct (is_binascii_Error e0); split; intros Heq; try discriminate Heq;
             rewrite Heq in Hm; discriminate Hm.
      * injection H as <- _. split; discriminate.
    + rewrite (invoke_unrecognized _ _ _ _ _ Ht Hc) in H.
      injection H as <- _. split; discriminate.
    + rewrite (invoke_contains_raise _ _ _ _ _ _ Ht Hc) in H.
      injection H as <- _. destruct (dict_contains_raise _ _ _ Hc) as (_ & Hm & _).
      split; intros Heq; rewrite Heq in Hm; discriminate Hm.
  - rewrite (invoke_no_type _ _ _ _ Ht) in H. injection H as <- _.
    split; discriminate.
Qed.

(** X20 (a text never produced).
    The text ["Message has no payload"] is never produced by the pipeline
    itself: a reply carries it only when the handler was reached and
    raised an exception with that message, [MissingPayloadError]. *)
Theorem missing_payload_text_from_handler self message h w :
  reply_of (generate_reply self message (h, w))
    = Some (error_reply "Message has no payload") ->
  exists t f decoded e w',
    reaches_handler self message h t f decoded /\
    f (handler_kwargs message h decoded) w = (Raise e, w') /\
    message_attr e = Some "Message has no payload".
Proof.
  rewrite reply_of_by_outcome. intros H.
  assert (Htext : forall e, Some (error_reply (error_text e))
                            = Some (error_reply "Message has no payload") ->
                            message_attr e = Some "Message has no payload").
  { intros e He. apply error_text_missing_payload.
    exact (error_reply_inj _ _ (inj Some _ _ He)). }
  destruct (invoke_cases self message h w) as [(e & Hinv & He & Hno)|(t & f & d & Hr)].
  - rewrite Hinv in H. cbn [fst] in H. rewrite He in H.
    destruct (invoke_raise_before_handler _ _ _ _ _ _ Hno Hinv) as [H1 _].
    pose proof (Htext e H) as Hm. destruct e; try discriminate Hm. now destruct H1.
  - exists t, f, d.
    destruct (invoke_reached_fst _ _ _ w _ _ _ Hr) as (Ho & _). rewrite Ho in H.
    destruct (f (handler_kwargs message h d) w) as [[v|e] w']; cbn [fst] in H.
    + destruct (b64encode v) as [encoded|e] eqn:Henc.
      * apply (inj Some) in H.
        apply (f_equal (fun d : dict => d !! "status")) in H. discriminate H.
      * destruct (b64encode_raise _ _ Henc) as (_ & _ & Hm & _).
        rewrite (Htext e H) in Hm. discriminate Hm.
    + exists e, w'. split; [exact Hr|]. split; [reflexivity|].
      destruct (is_Exception e); [exact (Htext e H) | discriminate H].
Qed.

(** X21 (a handler raising the module's errors).
    A handler that raises one of the four error classes of the
    module is answered with the text of that class, as if the pipeline
    had raised it. *)
Theorem handler_own_error_reply self message h w t f decoded e w' (text : string) :
  reaches_handler self message h t f decoded ->
  f (handler_kwargs message h decoded) w = (Raise e, w') ->
  message_attr e = Some text ->
  reply_of (generate_reply self message (h, w)) = Some (error_reply text).
Proof.
  intros Hr Hcall Hm.
  destruct (invoke_reached_fst _ _ _ w _ _ _ Hr) as (Ho & _).
  rewrite reply_of_by_outcome, Ho, Hcall. cbn [fst].
  unfold error_text. rewrite Hm. now destruct e.
Qed.

(** X22 (unhashable type).
    A ['type'] value that is not hashable (a list) is answered with
    the ["Server error: "] reply carrying the [TypeError] of the
    membership test, whatever the registry and the payload; no handler is
    called. *)
Theorem unhashable_type_reply self message h w v :
  (h !!! message) !! "type" = Some v ->
  hashable v = false ->
  reply_of (generate_reply self message (h, w))
    = Some (error_reply ("Server error: unhashable type: "
                         +:+ py_repr (VStr (type_name v)))) /\
  world_of (generate_reply self message (h, w)) = w.
Proof.
  intros Ht Hh.
  assert (Hc : dict_contains (function_dictionary self) v
               = Raise (TypeError ("unhashable type: "
                                   +:+ py_repr (VStr (type_name v))))).
  { destruct v; try discriminate Hh. reflexivity. }
  exact (reply_of_raised _ _ _ _ _ (invoke_contains_raise _ _ _ w _ _ Ht Hc) eq_refl).
Qed.


End ErrorTexts.

(** ** The properties of a whole dispatch at sample registries and messages *)

(** The sample message reaches the echo handler with [b"hi"]. *)
Lemma echo_hi_reaches_echo :
  reaches_handler sample_dispatcher 1%positive echo_hi_heap "echo" echo
    (bytes_of_string "hi").
Proof.
  split; [reflexivity|]. split; [reflexivity|].
  exists (VStr "aGk="). split; reflexivity.
Qed.


Lemma no_payload_reaches_nothing (t : string) (f : handler nat) (decoded : bytes) :
  ~ reaches_handler sample_dispatcher 1%positive (no_payload_heap (VStr "echo"))
      t f decoded.
Proof. intros (_ & _ & p & Hp & _). vm_compute in Hp. discriminate Hp. Qed.

Lemma rejected_dispatch_effects_witness :
  exists (r : loc) (text : string),
    (r ∉ dom (no_payload_heap (VStr "echo"))) /\
    generate_reply sample_dispatcher 1%positive (no_payload_heap (VStr "echo"), 0%nat)
    = (Return r, (<[r := error_reply text]> (no_payload_heap (VStr "echo")), 0%nat)).
Proof.
  apply (rejected_dispatch_effects sample_dispatcher 1%positive
           (no_payload_heap (VStr "echo")) 0%nat).
  exact no_payload_reaches_nothing.
Defined.

Lemma dispatch_frame_witness :
  fst (generate_reply sample_dispatcher 1%positive (echo_hi_heap, 0%nat))
    = Return 2%positive /\
  (2%positive ∉ dom echo_hi_heap) /\
  (1%positive ∈ dom echo_hi_heap -> 2%positive ≠ 1%positive).
Proof.
  split; [reflexivity|].
  apply (proj2 (dispatch_frame sample_dispatcher 1%positive echo_hi_heap 0%nat)
           2%positive).
  reflexivity.
Defined.

Lemma fault_escapes_from_handler_witness :
  exists msg,
    fst (generate_reply interruptible_dispatcher 1%positive
           (message_heap (VStr "interrupt") (VStr "aGk="), 0%nat))
    = Raise (UnboundLocalError msg).
Proof.
  apply (proj2 (fault_escapes_from_handler interruptible_dispatcher 1%positive
                  (message_heap (VStr "interrupt") (VStr "aGk=")) 0%nat)
           "interrupt" interrupting (bytes_of_string "hi")
           (BaseException_ EmptyString) 1%nat).
  - split; [reflexivity|]. split; [reflexivity|].
    exists (VStr "aGk="). split; reflexivity.
  - reflexivity.
  - reflexivity.
Defined.


Lemma status_ok_iff_result_encoded_witness :
  exists reply : dict,
    reply_of (generate_reply sample_dispatcher 1%positive (echo_hi_heap, 0%nat))
      = Some reply /\
    reply !! "status" = Some (VStr "ok").
Proof.
  apply (proj2 (status_ok_iff_result_encoded sample_dispatcher 1%positive
                  echo_hi_heap 0%nat)).
  exists "echo", echo, (bytes_of_string "hi"), (VBytes (bytes_of_string "hi")),
    (bytes_of_string "aGk=").
  split; [exact echo_hi_reaches_echo|]. split; reflexivity.
Defined.

Lemma ok_reply_decodes_to_result_witness :
  fst (echo (handler_kwargs 1%positive echo_hi_heap (bytes_of_string "hi")) 0%nat)
    = Return (VBytes (bytes_of_string "hi")) /\
  exists text,
    reply_of (generate_reply sample_dispatcher 1%positive (echo_hi_heap, 0%nat))
      = Some (ok_reply (VStr text)) /\
    is_ascii text = true /\
    b64decode (VStr text) = Return (bytes_of_string "hi").
Proof.
  split; [reflexivity|].
  apply (ok_reply_decodes_to_result sample_dispatcher 1%positive echo_hi_heap 0%nat
           "echo" echo (bytes_of_string "hi") (bytes_of_string "hi")).
  - exact echo_hi_reaches_echo.
  - reflexivity.
Defined.

Lemma handler_called_once_witness :
  snd (describe (handler_kwargs 1%positive (typed_hi_heap (VStr "describe"))
                   (bytes_of_string "hi")) 0%nat) = 1%nat /\
  world_of (generate_reply sample_dispatcher 1%positive
              (typed_hi_heap (VStr "describe"), 0%nat))
    = snd (describe (handler_kwargs 1%positive (typed_hi_heap (VStr "describe"))
                       (bytes_of_string "hi")) 0%nat).
Proof.
  split; [reflexivity|].
  apply (handler_called_once sample_dispatcher 1%positive
           (typed_hi_heap (VStr "describe")) 0%nat "describe" describe
           (bytes_of_string "hi")).
  split; [reflexivity|]. split; [reflexivity|].
  exists (VStr "aGk="). split; reflexivity.
Defined.

Lemma validate_json_outcome_witness :
  fst (validate_json sample_dispatcher 1%positive (no_payload_heap (VStr "echo")))
    = Return tt.
Proof.
  apply (proj2 (proj1 (proj2 (validate_json_outcome sample_dispatcher 1%positive
                                (no_payload_heap (VStr "echo")))))).
  exists "echo", echo. split; reflexivity.
Defined.

Lemma decode_payload_failure_witness :
  decode_payload 1%positive (message_heap (VStr "echo") VNone)
    = (Raise (TypeError
                "argument should be a bytes-like object or ASCII string, not 'NoneType'"),
       message_heap (VStr "echo") VNone) /\
  message_heap (VStr "echo") VNone = message_heap (VStr "echo") VNone /\
  (((message_heap (VStr "echo") VNone !!! 1%positive) !! "payload" = None /\
    TypeError "argument should be a bytes-like object or ASCII string, not 'NoneType'"
    = KeyError "'payload'") \/
   (exists p msg,
      (message_heap (VStr "echo") VNone !!! 1%positive) !! "payload" = Some p /\
      b64decode p = Raise (binascii_Error msg) /\
      TypeError "argument should be a bytes-like object or ASCII string, not 'NoneType'"
      = PayloadNotBase64Error) \/
   (exists text,
      (message_heap (VStr "echo") VNone !!! 1%positive) !! "payload"
      = Some (VStr text) /\
      is_ascii text = false /\
      TypeError "argument should be a bytes-like object or ASCII string, not 'NoneType'"
      = ValueError "string argument should contain only ASCII characters") \/
   (exists p,
      (message_heap (VStr "echo") VNone !!! 1%positive) !! "payload" = Some p /\
      (forall text, p ≠ VStr text) /\ (forall b, p ≠ VBytes b) /\
      TypeError "argument should be a bytes-like object or ASCII string, not 'NoneType'"
      = TypeError ("argument should be a bytes-like object or ASCII string, not "
                   +:+ py_repr (VStr (type_name p))))).
Proof.
  split; [reflexivity|].
  apply (decode_payload_failure 1%positive (message_heap (VStr "echo") VNone)
           (TypeError
              "argument should be a bytes-like object or ASCII string, not 'NoneType'")
           (message_heap (VStr "echo") VNone)).
  reflexivity.
Defined.

Lemma encode_payload_failure_witness :
  (one_message (ok_reply (VStr "done")) !!! 1%positive) !! "payload"
    = Some (VStr "done") /\
  encode_payload 1%positive (one_message (ok_reply (VStr "done")))
  = (Raise (TypeError ("a bytes-like object is required, not "
                       +:+ py_repr (VStr (type_name (VStr "done"))))),
     one_message (ok_reply (VStr "done"))).
Proof.
  split; [reflexivity|].
  apply (proj2 (encode_payload_failure 1%positive
                  (one_message (ok_reply (VStr "done")))) (VStr "done")).
  - reflexivity.
  - intros b [=].
Defined.

Lemma wrong_type_payload_reply_witness :
  (message_heap (VStr "echo") (VInt 5) !!! 1%positive) !! "payload" = Some (VInt 5) /\
  reply_of (generate_reply sample_dispatcher 1%positive
              (message_heap (VStr "echo") (VInt 5), 0%nat))
    = Some (error_reply
              ("Server error: argument should be a bytes-like object or ASCII string, not "
               +:+ py_repr (VStr (type_name (VInt 5))))) /\
  world_of (generate_reply sample_dispatcher 1%positive
              (message_heap (VStr "echo") (VInt 5), 0%nat)) = 0%nat.
Proof.
  split; [reflexivity|].
  apply (wrong_type_payload_reply sample_dispatcher 1%positive
           (message_heap (VStr "echo") (VInt 5)) 0%nat "echo" echo (VInt 5)).
  - reflexivity.
  - reflexivity.
  - reflexivity.
  - intros text [=].
  - intros b [=].
Defined.

Lemma non_ascii_payload_reply_witness :
  is_ascii accented_text = false /\
  reply_of (generate_reply sample_dispatcher 1%positive
              (message_heap (VStr "echo") (VStr accented_text), 0%nat))
    = Some (error_reply
              "Server error: string argument should contain only ASCII characters") /\
  world_of (generate_reply sample_dispatcher 1%positive
              (message_heap (VStr "echo") (VStr accented_text), 0%nat)) = 0%nat.
Proof.
  split; [reflexivity|].
  apply (non_ascii_payload_reply sample_dispatcher 1%positive
           (message_heap (VStr "echo") (VStr accented_text)) 0%nat "echo" echo
           accented_text); reflexivity.
Defined.

Lemma add_function_other_types_witness :
  generate_reply (add_function sample_dispatcher "interrupt" interrupting) 1%positive
    (echo_hi_heap, 0%nat)
  = generate_reply sample_dispatcher 1%positive (echo_hi_heap, 0%nat).
Proof.
  apply (add_function_other_types sample_dispatcher "interrupt" interrupting
           1%positive echo_hi_heap 0%nat).
  vm_compute. intros [=].
Defined.

Lemma add_function_last_wins_witness :
  reaches_handler (add_function (add_function sample_dispatcher "echo" failing)
                     "echo" describe)
    1%positive echo_hi_heap "echo" describe (bytes_of_string "hi") /\
  generate_reply (add_function (add_function sample_dispatcher "echo" failing)
                    "echo" describe) 1%positive (echo_hi_heap, 0%nat)
  = generate_reply (add_function sample_dispatcher "echo" describe) 1%positive
      (echo_hi_heap, 0%nat) /\
  world_of (generate_reply (add_function (add_function sample_dispatcher "echo" failing)
                              "echo" describe) 1%positive (echo_hi_heap, 0%nat))
  = snd (describe (handler_kwargs 1%positive echo_hi_heap (bytes_of_string "hi")) 0%nat).
Proof.
  apply (add_function_last_wins sample_dispatcher "echo" failing describe
           1%positive echo_hi_heap 0%nat (VStr "aGk=") (bytes_of_string "hi"));
    reflexivity.
Defined.

Lemma add_function_order_irrelevant_witness :
  generate_reply (add_function (add_function (init None) "echo" echo) "failing" failing)
    1%positive (echo_hi_heap, 0%nat)
  = generate_reply (add_function (add_function (init None) "failing" failing) "echo" echo)
      1%positive (echo_hi_heap, 0%nat).
Proof.
  apply (add_function_order_irrelevant (init None) "echo" echo "failing" failing
           1%positive (echo_hi_heap, 0%nat)).
  intros [=].
Defined.

Lemma dispatch_depends_on_items_witness :
  reply_of (generate_reply sample_dispatcher 1%positive (echo_hi_heap, 0%nat))
  = reply_of (generate_reply sample_dispatcher 2%positive
                (<[2%positive := echo_hi_heap !!! 1%positive]> hi_heap, 0%nat)) /\
  world_of (generate_reply sample_dispatcher 1%positive (echo_hi_heap, 0%nat))
  = world_of (generate_reply sample_dispatcher 2%positive
                (<[2%positive := echo_hi_heap !!! 1%positive]> hi_heap, 0%nat)).
Proof.
  apply (dispatch_depends_on_items sample_dispatcher 1%positive 2%positive
           echo_hi_heap (<[2%positive := echo_hi_heap !!! 1%positive]> hi_heap) 0%nat).
  reflexivity.
Defined.

Lemma redispatch_decodes_again_witness :
  reaches_handler sample_dispatcher 1%positive
    (message_heap (VStr "echo") (VStr "YUdrPQ==")) "echo" echo
    (bytes_of_string "aGk=") /\
  reaches_handler sample_dispatcher 1%positive
    (fst (snd (generate_reply sample_dispatcher 1%positive
                 (message_heap (VStr "echo") (VStr "YUdrPQ=="), 0%nat))))
    "echo" echo (bytes_of_string "hi").
Proof.
  assert (Hr : reaches_handler sample_dispatcher 1%positive
                 (message_heap (VStr "echo") (VStr "YUdrPQ==")) "echo" echo
                 (bytes_of_string "aGk=")).
  { split; [reflexivity|]. split; [reflexivity|].
    exists (VStr "YUdrPQ=="). split; reflexivity. }
  split; [exact Hr|].
  apply (proj2 (redispatch_decodes_again sample_dispatcher 1%positive
                  (message_heap (VStr "echo") (VStr "YUdrPQ==")) 0%nat
                  "echo" echo (bytes_of_string "aGk=") Hr
                  "echo" echo (bytes_of_string "hi"))).
  split; [reflexivity|]. split; reflexivity.
Defined.

(** The sample message dispatched twice: the second dispatch finds
    [b"hi"] in the message, which is not base64. *)
Example echo_hi_twice :
  reply_of (generate_reply sample_dispatcher 1%positive
              (snd (generate_reply sample_dispatcher 1%positive (echo_hi_heap, 0%nat))))
    = Some (error_reply "Message payload cannot be decoded from base64").
Proof. reflexivity. Qed.

Lemma missing_payload_text_from_handler_witness :
  exists t f decoded e w',
    reaches_handler rejecting_dispatcher 1%positive
      (message_heap (VStr "reject") (VStr "aGk=")) t f decoded /\
    f (handler_kwargs 1%positive (message_heap (VStr "reject") (VStr "aGk=")) decoded)
      0%nat = (Raise e, w') /\
    message_attr e = Some "Message has no payload".
Proof.
  apply (missing_payload_text_from_handler rejecting_dispatcher 1%positive
           (message_heap (VStr "reject") (VStr "aGk=")) 0%nat).
  reflexivity.
Defined.

Lemma handler_own_error_reply_witness :
  reply_of (generate_reply rejecting_dispatcher 1%positive
              (message_heap (VStr "reject") (VStr "aGk="), 0%nat))
    = Some (error_reply "Message has no payload").
Proof.
  apply (handler_own_error_reply rejecting_dispatcher 1%positive
           (message_heap (VStr "reject") (VStr "aGk=")) 0%nat "reject" rejecting
           (bytes_of_string "hi") MissingPayloadError 1%nat
           "Message has no payload").
  - split; [reflexivity|]. split; [reflexivity|].
    exists (VStr "aGk="). split; reflexivity.
  - reflexivity.
  - reflexivity.
Defined.

Lemma unhashable_type_reply_witness :
  (typed_hi_heap (VList []) !!! 1%positive) !! "type" = Some (VList []) /\
  reply_of (generate_reply sample_dispatcher 1%positive
              (typed_hi_heap (VList []), 0%nat))
    = Some (error_reply ("Server error: unhashable type: "
                         +:+ py_repr (VStr (type_name (VList []))))) /\
  world_of (generate_reply sample_dispatcher 1%positive
              (typed_hi_heap (VList []), 0%nat)) = 0%nat.
Proof.
  split; [reflexivity|].
  apply (unhashable_type_reply sample_dispatcher 1%positive
           (typed_hi_heap (VList [])) 0%nat (VList [])); reflexivity.
Defined.

Lemma reply_unless_handler_raises_witness :
  exists reply : dict,
    reply_of (generate_reply sample_dispatcher 1%positive (echo_hi_heap, 0%nat))
      = Some reply /\
    well_formed_reply reply.
Proof.
  apply (reply_unless_handler_raises sample_dispatcher 1%positive echo_hi_heap 0%nat).
  intros t f decoded Hr.
  destruct (reaches_handler_inj _ _ _ _ _ _ _ _ _ echo_hi_reaches_echo Hr)
    as (_ & -> & ->).
  exists (VBytes (bytes_of_string "hi")). reflexivity.
Defined.


